(** * A shallow embedding of the ASOS scraper of fashionWebScrapping

    The development models [src/fashion_scraper/asos/scraper.py]:
    the tenacity retry policy that decorates [get_product_links], the
    link collection itself (selector cascade, static-markup fallback,
    order-preserving deduplication) and the product extraction
    [scrape_product], which assembles a Python dict from the page.

    Python strings are modelled as Rocq [string]s holding the UTF-8 bytes
    of the text.  Because UTF-8 is self-synchronising, replacing the byte
    sequence of a code point (such as the two bytes of the pound sign)
    coincides with Python's replacement of the code point itself. *)

From Stdlib Require Import String Ascii List ZArith QArith Bool Lia.
Import ListNotations.
Open Scope string_scope.
Local Set Warnings "-register-all".


(* ------------------------------------------------------------------ *)
(** ** Python string primitives *)

Module Py.

(** [prefixb p s]: [s.startswith(p)]. *)
Fixpoint prefixb (p s : string) : bool :=
  match p, s with
  | EmptyString, _ => true
  | String a p', String b s' => Ascii.eqb a b && prefixb p' s'
  | String _ _, EmptyString => false
  end.

(** [contains needle hay]: Python's [needle in hay]. *)
Fixpoint contains (needle hay : string) : bool :=
  prefixb needle hay ||
  match hay with
  | EmptyString => false
  | String _ hay' => contains needle hay'
  end.

(** [s.replace(old, new)] for a non-empty [old]: a left-to-right scan
    that replaces non-overlapping occurrences.  The fuel is the length of
    the string, and every step consumes at least one character. *)
Fixpoint replace_fuel (fuel : nat) (old new s : string) : string :=
  match fuel with
  | O => s
  | S fuel' =>
      match s with
      | EmptyString => EmptyString
      | String c s' =>
          if prefixb old s
          then new ++ replace_fuel fuel'
                        old new (substring (String.length old) (String.length s) s)
          else String c (replace_fuel fuel' old new s')
      end
  end.

Definition replace (old new s : string) : string :=
  replace_fuel (String.length s) old new s.

(** Characters that [str.isspace] accepts among the ASCII range. *)
Definition is_space (c : ascii) : bool :=
  let n := nat_of_ascii c in
  (n =? 32)%nat || ((9 <=? n) && (n <=? 13))%nat
  || ((28 <=? n) && (n <=? 31))%nat.

Fixpoint lstrip_by (p : ascii -> bool) (s : string) : string :=
  match s with
  | EmptyString => EmptyString
  | String c s' => if p c then lstrip_by p s' else s
  end.

Definition rev_string (s : string) : string :=
  string_of_list_ascii (rev (list_ascii_of_string s)).

Definition strip_by (p : ascii -> bool) (s : string) : string :=
  rev_string (lstrip_by p (rev_string (lstrip_by p s))).

(** [s.strip()] *)
Definition strip (s : string) : string := strip_by is_space s.

Fixpoint mem_char (c : ascii) (chars : string) : bool :=
  match chars with
  | EmptyString => false
  | String d r => Ascii.eqb c d || mem_char c r
  end.

(** [s.strip(chars)] *)
Definition strip_chars (chars s : string) : string :=
  strip_by (fun c => mem_char c chars) s.

(** [s.lower()] on the ASCII letters; other bytes are left unchanged. *)
Definition lower_char (c : ascii) : ascii :=
  let n := nat_of_ascii c in
  if ((65 <=? n) && (n <=? 90))%nat then ascii_of_nat (n + 32) else c.

Fixpoint lower (s : string) : string :=
  match s with
  | EmptyString => EmptyString
  | String c s' => String (lower_char c) (lower s')
  end.

(** [s.split(sep)] for a non-empty [sep]. *)
Fixpoint split_fuel (fuel : nat) (sep s : string) (cur : string)
  : list string :=
  match fuel with
  | O => [cur ++ s]
  | S fuel' =>
      match s with
      | EmptyString => [cur]
      | String c s' =>
          if prefixb sep s
          then cur :: split_fuel fuel' sep
                        (substring (String.length sep) (String.length s) s) ""
          else split_fuel fuel' sep s' (cur ++ String c "")
      end
  end.

Definition split (sep s : string) : list string :=
  split_fuel (String.length s) sep s "".

(** [s.split()]: runs of whitespace separate the words, empty words are
    dropped. *)
Fixpoint split_ws_aux (s : string) (cur : string) : list string :=
  match s with
  | EmptyString => if String.eqb cur "" then [] else [cur]
  | String c s' =>
      if is_space c
      then (if String.eqb cur "" then [] else [cur]) ++ split_ws_aux s' ""
      else split_ws_aux s' (cur ++ String c "")
  end.

Definition split_ws (s : string) : list string := split_ws_aux s "".

(** [l[i]]: [None] stands for the [IndexError]. *)
Definition index {A} (l : list A) (i : nat) : option A := nth_error l i.

(** Python truthiness of a string. *)
Definition truthy (s : string) : bool := negb (String.eqb s "").

(** [s.split(c)] for a one-character separator, in one pass: the
    pieces read so far and the current one. *)
Fixpoint split_char (c : ascii) (s cur : string) : list string :=
  match s with
  | EmptyString => [cur]
  | String d s' =>
      if Ascii.eqb c d then cur :: split_char c s' ""
      else split_char c s' (cur ++ String d "")
  end.

End Py.

(* ------------------------------------------------------------------ *)
(** ** Python's [int()] and [float()] on strings *)

Module PyNum.

Definition is_digit (c : ascii) : bool :=
  let n := nat_of_ascii c in ((48 <=? n) && (n <=? 57))%nat.

Definition digit_value (c : ascii) : Z := Z.of_nat (nat_of_ascii c - 48).

(** The tail of a [digitpart]: [(["_"] digit)*], taken greedily. *)
Fixpoint digits_tail (l : list ascii) : list ascii * list ascii :=
  match l with
  | [] => ([], [])
  | c :: r =>
      if is_digit c then
        let '(d, rest) := digits_tail r in (c :: d, rest)
      else if Ascii.eqb c "_" then
        match r with
        | c2 :: r2 =>
            if is_digit c2 then let '(d, rest) := digits_tail r2 in (c2 :: d, rest)
            else ([], l)
        | [] => ([], l)
        end
      else ([], l)
  end.

(** [digitpart ::= digit (["_"] digit)*]: the digits read (underscores
    dropped) and the rest of the input. *)
Definition digitpart (l : list ascii) : option (list ascii * list ascii) :=
  match l with
  | c :: r =>
      if is_digit c then let '(d, rest) := digits_tail r in Some (c :: d, rest)
      else None
  | [] => None
  end.

Definition digits_value (ds : list ascii) : Z :=
  fold_left (fun acc c => acc * 10 + digit_value c)%Z ds 0%Z.

Definition sign_of (l : list ascii) : Z * list ascii :=
  match l with
  | c :: r =>
      if Ascii.eqb c "-" then (-1, r)%Z
      else if Ascii.eqb c "+" then (1, r)%Z else (1, l)%Z
  | [] => (1%Z, l)
  end.

(** [int(s)] in base 10: surrounding whitespace, an optional sign and a
    [digitpart]; [None] is the [ValueError]. *)
Definition py_int (s : string) : option Z :=
  let l := list_ascii_of_string (Py.strip s) in
  let '(sg, l1) := sign_of l in
  match digitpart l1 with
  | Some (ds, []) => Some (sg * digits_value ds)%Z
  | _ => None
  end.

(** A Python float: finite values are kept as the exact decimal the text
    denotes (the float is its nearest double). *)
Inductive pyfloat :=
| Finite (q : Q)
| Infinity (negative : bool)
| NaN.

Definition decimal (sg : Z) (mant : Z) (e : Z) : Q :=
  if (0 <=? e)%Z then Qred (inject_Z (sg * mant * 10 ^ e))
  else Qred (Qmake (sg * mant) (Z.to_pos (10 ^ (- e)))).

(** The optional exponent [(e|E) [sign] digitpart] followed by the end of
    the input. *)
Definition exponent_end (l : list ascii) : option Z :=
  match l with
  | [] => Some 0%Z
  | c :: r =>
      if Ascii.eqb c "e" || Ascii.eqb c "E" then
        let '(sg, r1) := sign_of r in
        match digitpart r1 with
        | Some (ds, []) => Some (sg * digits_value ds)%Z
        | _ => None
        end
      else None
  end.

(** [digitpart ["." [digitpart]] | "." digitpart], then the exponent. *)
Definition decimal_number (l : list ascii) : option (Z * Z) :=
  match l with
  | c :: r =>
      if Ascii.eqb c "." then
        match digitpart r with
        | Some (fr, rest) =>
            match exponent_end rest with
            | Some e => Some (digits_value fr, e - Z.of_nat (List.length fr))%Z
            | None => None
            end
        | None => None
        end
      else
        match digitpart l with
        | Some (ip, rest) =>
            match rest with
            | d :: rest' =>
                if Ascii.eqb d "." then
                  let '(fr, rest'') :=
                    match digitpart rest' with
                    | Some p => p
                    | None => ([], rest')
                    end in
                  match exponent_end rest'' with
                  | Some e =>
                      Some (digits_value (ip ++ fr),
                            e - Z.of_nat (List.length fr))%Z
                  | None => None
                  end
                else
                  match exponent_end rest with
                  | Some e => Some (digits_value ip, e)
                  | None => None
                  end
            | [] => Some (digits_value ip, 0%Z)
            end
        | None => None
        end
  | [] => None
  end.

(** [float(s)]: surrounding whitespace, an optional sign, then a decimal
    number or one of [inf], [infinity], [nan] in any case; [None] is the
    [ValueError]. *)
Definition py_float (s : string) : option pyfloat :=
  let l := list_ascii_of_string (Py.strip s) in
  let '(sg, l1) := sign_of l in
  let word := Py.lower (string_of_list_ascii l1) in
  if String.eqb word "inf" || String.eqb word "infinity"
  then Some (Infinity (Z.eqb sg (-1)))
  else if String.eqb word "nan" then Some NaN
  else match decimal_number l1 with
       | Some (m, e) => Some (Finite (decimal sg m e))
       | None => None
       end.

End PyNum.

(* ------------------------------------------------------------------ *)
(** ** Python values, exceptions and observable effects *)

(** An exception: its class name and message.  [RetryError] is the
    exception tenacity raises once its stop condition holds, wrapping the
    last attempt's exception. *)
Inductive exn :=
| Exn (cls msg : string)
| RetryError (last : exn).

Inductive result (A : Type) :=
| Ok (v : A)
| Raise (e : exn).
Arguments Ok {A} v.
Arguments Raise {A} e.

Inductive pyval :=
| PNone
| PStr (s : string)
| PInt (z : Z)
| PFloat (f : PyNum.pyfloat)
| PList (l : list pyval)
| PDict (d : list (string * pyval)).

(** A dict in insertion order. *)
Definition dict := list (string * pyval).

(** [d[k] = v]: an existing key keeps its position, a new key goes last. *)
Fixpoint dset (k : string) (v : pyval) (d : dict) : dict :=
  match d with
  | [] => [(k, v)]
  | (k', v') :: d' =>
      if String.eqb k k' then (k, v) :: d' else (k', v') :: dset k v d'
  end.

Fixpoint dget (k : string) (d : dict) : option pyval :=
  match d with
  | [] => None
  | (k', v) :: d' => if String.eqb k k' then Some v else dget k d'
  end.

(** [k in d] *)
Definition has_key (k : string) (d : dict) : bool :=
  match dget k d with Some _ => true | None => false end.

(** [str(e)] *)
Definition exn_str (e : exn) : string :=
  match e with
  | Exn _ msg => msg
  | RetryError _ => "RetryError"
  end.

(** [str(n)] for a natural number. *)
Fixpoint string_of_nat_aux (fuel n : nat) (acc : string) : string :=
  match fuel with
  | O => acc
  | S fuel' =>
      let acc' := String (ascii_of_nat (48 + n mod 10)) acc in
      if (n <? 10)%nat then acc' else string_of_nat_aux fuel' (n / 10) acc'
  end.

Definition string_of_nat (n : nat) : string := string_of_nat_aux (S n) n "".

(** What the code does to the world: navigating the browser, writing a
    debug file named [prefix ++ str(stamp) ++ ".html"] with a content, and
    emitting a log record at level INFO or above with its formatted
    message. *)
Inductive effect :=
| Navigate (url : string)
| WriteFile (prefix : string) (stamp : Z) (content : string)
| Log (level msg : string).

(** The URLs the browser was sent to, in order. *)
Fixpoint navigations (eff : list effect) : list string :=
  match eff with
  | [] => []
  | Navigate u :: r => u :: navigations r
  | _ :: r => navigations r
  end.

(* ------------------------------------------------------------------ *)
(** ** The product page as [scrape_product] observes it *)

(** A review block: the texts of [p.seSWD], [span.L0xqb], [p.m0ehn],
    [h4.DBTNB] and, for [button[data-testid=reviewsReadMore]], its
    [aria-label] attribute and its text. *)
Record ReviewSection := {
  rs_rating : option string;
  rs_date : option string;
  rs_status : option string;
  rs_title : option string;
  rs_button : option (option string * string)
}.

(** The live [div[data-testid=reviewsSection]] element: the texts of its
    overall-rating and total-reviews children (or the exception
    [find_element] raises), the exception of the "view all" click if it
    fails, and the [section.x5rH4] blocks of the page re-parsed after it. *)
Record LiveReviews := {
  lr_overall : result string;
  lr_total : result string;
  lr_click : option exn;
  lr_sections : list ReviewSection
}.

(** One [li] of a carousel: its [a.Usg4d] (with its [href], [aria-label]
    and [title] attributes), its [img.gb1Ne] (with its [src] attribute)
    and the text of its current-price span. *)
Record CarouselItem := {
  ci_a : option (option string * option string * option string);
  ci_img : option (option string);
  ci_price : option string
}.

(** The attributes [src], [data-src], [data-full-image] of an image whose
    class contains "product-image". *)
Record ImgAttrs := {
  img_src : option string;
  img_data_src : option string;
  img_data_full : option string
}.

Record ProductPage := {
  pp_source : string;                        (* driver.page_source *)
  pp_wait : result unit;                     (* wait_for_page_load: the exception it catches *)
  pp_price : result string;                  (* span[data-testid=current-price] text, or the wait's exception *)
  pp_h1 : option string;                     (* first h1 text *)
  pp_brand_link : option string;             (* first a with '/brand/' in href: its text *)
  pp_brand_section : option (option string); (* productDescriptionBrand, its div.F_yfF text *)
  pp_about_section : option (option string); (* productDescriptionAboutMe, its div.F_yfF text *)
  pp_saved : option (option string);         (* div.ii5iT, its span.BFMOG text *)
  pp_ratings_block : option (option string * option string);
                                             (* reviews-and-product-rating: overall-rating, total-reviews texts *)
  pp_recommend : option string;              (* p.NeBNz text *)
  pp_rating_bars : list (option (option string));
                                             (* each ratingBar: its div.qKPxB and that div's style *)
  pp_recent : option ReviewSection;          (* first section whose aria-label contains 'Review' *)
  pp_live_reviews : result LiveReviews;      (* the wait for reviewsSection, or its exception *)
  pp_might_like : option (list CarouselItem);    (* mightLikeGrid items *)
  pp_people_bought : option (list CarouselItem); (* carousel items *)
  pp_description : option string;           (* first div whose class contains 'description' *)
  pp_colour : option (option string);        (* productColour, its p.aKxaq text *)
  pp_details : option (option (list string * string));
                                             (* 'Product Details' title, the next div.F_yfF: its li texts and its text *)
  pp_code_p : option string;                 (* p.Jk9Oz text *)
  pp_images : list ImgAttrs
}.

(* ------------------------------------------------------------------ *)
(** ** [scrape_product] *)

Module Product.

Definition float_or_none (t : string) : pyval :=
  match PyNum.py_float t with Some f => PFloat f | None => PNone end.

Definition int_or_none (t : string) : pyval :=
  match PyNum.py_int t with Some n => PInt n | None => PNone end.

(** [float(text.strip().split()[0])], [ValueError] and [IndexError]
    caught into [None]. *)
Definition first_word_float (t : string) : pyval :=
  match Py.index (Py.split_ws (Py.strip t)) 0 with
  | Some w => float_or_none w
  | None => PNone
  end.

(** [int(text.strip('()').split()[0])]: [None] is the [IndexError]. *)
Definition total_reviews_of (t : string) : option pyval :=
  match Py.index (Py.split_ws (Py.strip_chars "()" t)) 0 with
  | Some w => Some (int_or_none w)
  | None => None
  end.

(** Lines 254-266: the price, when its element is present; the text is
    stripped, the pound sign and the commas removed, then converted with
    [float()], the cleaned string being kept when that fails. *)
Definition clean_price (text : string) : string :=
  Py.replace "," "" (Py.replace "£" "" (Py.strip text)).

Definition price_value (text : string) : pyval :=
  let t := clean_price text in
  match PyNum.py_float t with
  | Some f => PFloat f
  | None => PStr t
  end.

Definition price_step (p : ProductPage) (d : dict) : dict * list effect :=
  match pp_price p with
  | Ok text => (dset "price" (price_value text) d, [])
  | Raise e => (d, [Log "WARNING" ("Failed to find price: " ++ exn_str e)])
  end.

(** Lines 339-356: a rating bar, [int(style.split(':')[1].strip('%;'))];
    a missing style ([KeyError]) or an unparsable number ([ValueError])
    give [None]; a style without a colon raises the [IndexError], which
    the handler does not list. *)
Definition bar_value (bar : option (option string)) : result (option pyval) :=
  match bar with
  | None => Ok None
  | Some None => Ok (Some PNone)
  | Some (Some style) =>
      match Py.index (Py.split ":" style) 1 with
      | Some part => Ok (Some (int_or_none (Py.strip_chars "%;" part)))
      | None => Raise (Exn "IndexError" "list index out of range")
      end
  end.

Definition set_opt (k : string) (v : option pyval) (d : dict) : dict :=
  match v with Some x => dset k x d | None => d end.

(** Lines 308-358: the ratings dict. *)
Definition ratings_of (p : ProductPage) : result dict :=
  match pp_ratings_block p with
  | None => Ok []
  | Some (overall, total) =>
      let d1 := match overall with
                | Some t => dset "overall_rating" (float_or_none (Py.strip t)) []
                | None => []
                end in
      let d2 := match total with
                | Some t =>
                    match total_reviews_of (Py.strip t) with
                    | Some v => dset "total_reviews" v d1
                    | None => dset "total_reviews" PNone d1
                    end
                | None => d1
                end in
      let d3 := match pp_recommend p with
                | Some t =>
                    match Py.index (Py.split "%" (Py.strip t)) 0 with
                    | Some w => dset "recommendation_percentage" (int_or_none w) d2
                    | None => dset "recommendation_percentage" PNone d2
                    end
                | None => d2
                end in
      match pp_rating_bars p with
      | fit :: quality :: _ =>
          match bar_value fit with
          | Raise e => Raise e
          | Ok fv =>
              let d4 := set_opt "fit_rating" fv d3 in
              match bar_value quality with
              | Raise e => Raise e
              | Ok qv => Ok (set_opt "quality_rating" qv d4)
              end
          end
      | _ => Ok d3
      end
  end.

(** Lines 361-392: the most recent review. *)
Definition recent_review_of (p : ProductPage) : dict :=
  match pp_recent p with
  | None => []
  | Some r =>
      let d1 := match rs_rating r with
                | Some t => dset "rating" (first_word_float t) [] | None => [] end in
      let d2 := match rs_date r with
                | Some t => dset "date" (PStr (Py.strip t)) d1 | None => d1 end in
      let d3 := match rs_status r with
                | Some t => dset "status" (PStr (Py.strip t)) d2 | None => d2 end in
      let d4 := match rs_title r with
                | Some t => dset "title" (PStr (Py.strip t)) d3 | None => d3 end in
      match rs_button r with
      | Some (_, t) => dset "text" (PStr (Py.strip t)) d4
      | None => d4
      end
  end.

(** Lines 462-500: one review of the expanded list. *)
Definition review_of (r : ReviewSection) : dict :=
  let d1 := match rs_rating r with
            | Some t => dset "rating" (first_word_float t) [] | None => [] end in
  let d2 := match rs_date r with
            | Some t => dset "date" (PStr (Py.strip t)) d1 | None => d1 end in
  let d3 := match rs_status r with
            | Some t => dset "status" (PStr (Py.strip t)) d2 | None => d2 end in
  let d4 := match rs_title r with
            | Some t => dset "title" (PStr (Py.strip t)) d3 | None => d3 end in
  match rs_button r with
  | Some (aria, t) =>
      let full := match aria with Some a => a | None => "" end in
      if Py.truthy full
      then dset "text" (PStr (Py.replace "... Read More" "" full)) d4
      else dset "text" (PStr (Py.replace "Read More" "" (Py.strip t))) d4
  | None => d4
  end.

Definition nonempty_dict (d : dict) : bool :=
  match d with [] => false | _ => true end.

(** Lines 395-508: the overall rating and review count read from the live
    element (added to the product dict), the list of reviews and the
    warnings.  Every exception of the block is caught; a missing
    overall-rating element skips both counts, an [IndexError] on the count
    skips the count. *)
Definition live_reviews (p : ProductPage) (d : dict)
  : dict * list pyval * list effect :=
  match pp_live_reviews p with
  | Raise e => (d, [], [Log "WARNING" ("No reviews section found: " ++ exn_str e)])
  | Ok lr =>
      let warn e := Log "WARNING" ("Error getting overall rating: " ++ e) in
      let '(d', logs1) :=
        match lr_overall lr with
        | Raise e => (d, [warn (exn_str e)])
        | Ok t =>
            let d1 := dset "overall_rating" (float_or_none (Py.strip t)) d in
            match lr_total lr with
            | Raise e => (d1, [warn (exn_str e)])
            | Ok t2 =>
                match total_reviews_of (Py.strip t2) with
                | Some v => (dset "total_reviews" v d1, [])
                | None => (d1, [warn "list index out of range"])
                end
            end
        end in
      let logs2 := match lr_click lr with
                   | Some e => [Log "WARNING"
                                  ("Could not click View All Reviews button: " ++ exn_str e)]
                   | None => []
                   end in
      (d', map PDict (filter nonempty_dict (map review_of (lr_sections lr))),
       app logs1 logs2)
  end.

(** Lines 518-533: one carousel item; a link without [href] or an image
    without [src] raises the [KeyError]. *)
Definition carousel_item (it : CarouselItem) : result dict :=
  let d1 :=
    match ci_a it with
    | None => Ok []
    | Some (None, _, _) => Raise (Exn "KeyError" "'href'")
    | Some (Some href, aria, title) =>
        let t := match aria with
                 | Some a => match Py.index (Py.split ". £" a) 0 with
                             | Some w => w | None => "" end
                 | None => match title with Some x => x | None => "" end
                 end in
        Ok (dset "title" (PStr t) (dset "url" (PStr href) []))
    end in
  match d1 with
  | Raise e => Raise e
  | Ok d1 =>
      let d2 := match ci_img it with
                | None => Ok d1
                | Some None => Raise (Exn "KeyError" "'src'")
                | Some (Some src) => Ok (dset "image" (PStr src) d1)
                end in
      match d2 with
      | Raise e => Raise e
      | Ok d2 =>
          Ok (match ci_price it with
              | Some t => dset "price" (PStr (Py.strip t)) d2
              | None => d2
              end)
      end
  end.

Fixpoint carousel (items : list CarouselItem) : result (list pyval) :=
  match items with
  | [] => Ok []
  | it :: rest =>
      match carousel_item it with
      | Raise e => Raise e
      | Ok d =>
          match carousel rest with
          | Raise e => Raise e
          | Ok l => Ok (if nonempty_dict d then PDict d :: l else l)
          end
      end
  end.

(** Lines 511-570: "You Might Also Like", then, inside its handler,
    "People Also Bought"; an exception in the first skips both keys, one
    in the second skips the second key. *)
Definition related (p : ProductPage) (d : dict) : dict * list effect :=
  let found name n :=
    Log "INFO" ("Found " ++ string_of_nat n ++ " products in '" ++ name ++ "' section") in
  let '(r1, logs1) :=
    match pp_might_like p with
    | None => (Ok [], [Log "WARNING" "Could not find 'You Might Also Like' section"])
    | Some items =>
        match carousel items with
        | Ok l => (Ok l, [Log "INFO" "Found 'You Might Also Like' section";
                          found "You Might Also Like" (List.length l)])
        | Raise e => (Raise e, [Log "INFO" "Found 'You Might Also Like' section"])
        end
    end in
  match r1 with
  | Raise e => (d, app logs1 [Log "WARNING" ("Error scraping 'You Might Also Like': " ++ exn_str e)])
  | Ok l =>
      let d1 := dset "people_also_like" (PList l) d in
      match pp_people_bought p with
      | None => (dset "people_also_bought" (PList []) d1,
                 app logs1 [Log "WARNING" "Could not find 'People Also Bought' section"])
      | Some items =>
          match carousel items with
          | Ok l2 => (dset "people_also_bought" (PList l2) d1,
                      app logs1 [Log "INFO" "Found 'People Also Bought' section";
                                 found "People Also Bought" (List.length l2)])
          | Raise e => (d1, app logs1 [Log "INFO" "Found 'People Also Bought' section";
                                       Log "WARNING" ("Error scraping 'People Also Bought': "
                                                      ++ exn_str e)])
          end
      end
  end.

Fixpoint take_digits (s : string) : string :=
  match s with
  | String c s' => if PyNum.is_digit c then String c (take_digits s') else ""
  | EmptyString => ""
  end.

(** [re.search(r'Product Code:\s*(\d+)', text).group(1)]: the leftmost
    match; [\s*] and [\d+] are greedy and never need to backtrack.  They
    are read on single characters: the ASCII whitespace of [Py.is_space]
    and the ASCII digits (Python also accepts non-ASCII ones). *)
Fixpoint product_code_search (s : string) : option string :=
  let here :=
    if Py.prefixb "Product Code:" s then
      let ds := take_digits (Py.lstrip_by Py.is_space
                               (substring 13 (String.length s) s)) in
      if Py.truthy ds then Some ds else None
    else None in
  match here with
  | Some ds => Some ds
  | None =>
      match s with
      | EmptyString => None
      | String _ s' => product_code_search s'
      end
  end.

(** Lines 614-628: one product image URL. *)
Definition image_url (img : ImgAttrs) : option string :=
  let get o := match o with Some x => x | None => "" end in
  let u0 := get (img_src img) in
  let u1 := if Py.truthy u0 then u0 else get (img_data_src img) in
  let u2 := if Py.truthy u1 then u1 else get (img_data_full img) in
  if Py.truthy u2 then
    match Py.index (Py.split "?" u2) 0 with
    | Some base => Some (base ++ "?$n_960w$&wid=951&fit=constrain")
    | None => None
    end
  else None.

Fixpoint image_urls (imgs : list ImgAttrs) : list pyval :=
  match imgs with
  | [] => []
  | i :: r => match image_url i with
              | Some u => PStr u :: image_urls r
              | None => image_urls r
              end
  end.

Definition opt_text (o : option (option string)) : pyval :=
  match o with Some (Some t) => PStr t | _ => PNone end.

Definition details_of (p : ProductPage) : list pyval :=
  match pp_details p with
  | Some (Some (lis, txt)) =>
      match lis with
      | _ :: _ => map PStr (filter Py.truthy lis)
      | [] => if Py.truthy txt then [PStr txt] else []
      end
  | _ => []
  end.

Definition colour_of (p : ProductPage) : option string :=
  match pp_colour p with
  | Some (Some t) => Some (Py.strip t)
  | _ => None
  end.

(** Lines 252-632: the product dict assembled from the page, with the
    records logged on the way.  The only exception that can escape the
    field code is the rating bar's [IndexError]. *)
Definition extract (p : ProductPage) (product_url : string)
  : result dict * list effect :=
  let '(d0, logs0) := price_step p [] in
  let d1 := match pp_h1 p with
            | Some t => dset "name" (PStr (Py.strip t)) d0 | None => d0 end in
  let d2 := match pp_brand_link p with
            | Some t => dset "brand" (PStr (Py.strip t)) d1 | None => d1 end in
  let d3 := dset "brand_details" (opt_text (pp_brand_section p)) d2 in
  let d4 := dset "about_me" (opt_text (pp_about_section p)) d3 in
  let d5 := dset "saved_count"
              (match pp_saved p with
               | Some (Some t) => int_or_none (Py.strip t)
               | _ => PNone
               end) d4 in
  match ratings_of p with
  | Raise e => (Raise e, logs0)
  | Ok r =>
      let d6 := dset "ratings" (PDict r) d5 in
      let d7 := dset "recent_review" (PDict (recent_review_of p)) d6 in
      let '(d8, revs, logs1) := live_reviews p d7 in
      let d9 := dset "all_reviews" (PList revs) d8 in
      let '(d10, logs2) := related p d9 in
      let d11 := match pp_description p with
                 | Some t => dset "description" (PStr (Py.strip t)) d10
                 | None => d10 end in
      let d12 := dset "colors"
                   (PList (match colour_of p with
                           | Some c => if Py.truthy c then [PStr c] else []
                           | None => []
                           end)) d11 in
      let d13 := dset "details" (PList (details_of p)) d12 in
      let d14 := dset "product_code"
                   (match pp_code_p p with
                    | Some t => match product_code_search (Py.strip t) with
                                | Some c => PStr c | None => PNone end
                    | None => PNone
                    end) d13 in
      let d15 := dset "images" (PList (image_urls (pp_images p))) d14 in
      (Ok (dset "url" (PStr product_url) d15), app logs0 (app logs1 logs2))
  end.

(** Line 245: the bot-detection test on the page source. *)
Definition bot_detected (p : ProductPage) : bool :=
  Py.contains "unusual traffic" (Py.lower (pp_source p))
  || Py.contains "verify you are human" (Py.lower (pp_source p)).

(** [product_data.get('name', 'Unknown')] as an f-string argument. *)
Definition name_or_unknown (d : dict) : string :=
  match dget "name" d with Some (PStr s) => s | _ => "Unknown" end.

(** Lines 91-113 as [scrape_product] sees them: the warnings of a failed
    [wait_for_page_load]. *)
Definition wait_logs (p : ProductPage) : list effect :=
  match pp_wait p with
  | Ok _ => []
  | Raise e => [Log "WARNING" ("Error waiting for page load: " ++ exn_str e);
                Log "WARNING" "Initial page load wait failed, but continuing anyway"]
  end.

(** [scrape_product(product_url)]: [nav] is the outcome of
    [driver.get(product_url)] and [now] is [int(time.time())].  The
    result comes with the effects in the order they happen. *)
Definition scrape_product (product_url : string) (nav : result ProductPage)
    (now : Z) : result dict * list effect :=
  let start := [Log "INFO" ("Starting to scrape product: " ++ product_url);
                Navigate product_url] in
  let raise_with e eff :=
    (Raise e, app start (app eff [Log "ERROR" ("Error scraping product " ++ product_url
                                                ++ ": " ++ exn_str e)])) in
  match nav with
  | Raise e => raise_with e []
  | Ok p =>
      if bot_detected p then
        raise_with (Exn "Exception" "Bot detection triggered")
          (app (wait_logs p)
             [Log "ERROR" "Bot detection triggered! Saving page source for debugging...";
              WriteFile "asos_bot_detection_" now (pp_source p)])
      else
        let fail logs :=
          raise_with (Exn "Exception" "Could not find any product details")
            (app (wait_logs p)
               (app logs
                  [Log "ERROR" "Could not find any product details. Saving page source for debugging...";
                   WriteFile "asos_product_debug_" now (pp_source p)])) in
        match extract p product_url with
        | (Ok d, logs) =>
            if has_key "price" d
            then (Ok d, app start (app (wait_logs p)
                          (app logs [Log "INFO" ("Successfully scraped product: "
                                                 ++ name_or_unknown d)])))
            else fail logs
        | (Raise e, logs) =>
            fail (app logs [Log "WARNING" ("Selenium scraping failed: " ++ exn_str e)])
        end
  end.

(** The product loop of [main.py] (lines 101-178): each link is scraped
    once; an empty dict is skipped, an exception is logged and the loop
    goes on with the next link. *)
Fixpoint scrape_all (links : list string) (visit : string -> result ProductPage)
    (now : Z) : list (string * dict) * list effect :=
  match links with
  | [] => ([], [])
  | l :: rest =>
      let '(r, eff) := scrape_product l (visit l) now in
      let '(recs, eff') := scrape_all rest visit now in
      match r with
      | Ok d => (if nonempty_dict d then (l, d) :: recs else recs, app eff eff')
      | Raise _ => (recs, app eff eff')
      end
  end.

(** The keys [extract] may write. *)
Definition extract_keys : list string :=
  ["price"; "name"; "brand"; "brand_details"; "about_me"; "saved_count";
   "ratings"; "recent_review"; "overall_rating"; "total_reviews";
   "all_reviews"; "people_also_like"; "people_also_bought"; "description";
   "colors"; "details"; "product_code"; "images"; "url"].

(** [img.get(attr, '')] *)
Definition attr_or_empty (o : option string) : string :=
  match o with Some x => x | None => "" end.

End Product.

(* ------------------------------------------------------------------ *)
(** ** [get_product_links]: one attempt *)

Module Links.

(** The category page as one attempt observes it: the URL after
    navigation, the outcome of the scrolling scripts, what
    [find_elements(By.CSS_SELECTOR, sel)] returns for each selector (each
    element being the outcome of [get_attribute('href')]), the [href]s of
    [soup.find_all('a', href=True)] over the page source, in document
    order, and the page source itself. *)
Record CategoryPage := {
  cp_current_url : string;
  cp_scroll : result unit;
  cp_find_elements : string -> result (list (result (option string)));
  cp_anchor_hrefs : list string;
  cp_source : string
}.

(** The double quote character. *)
Definition dq : string := String (ascii_of_nat 34) EmptyString.

(** The CSS attribute selector [[attr op "value"]]. *)
Definition attr (name op value : string) : string :=
  "[" ++ name ++ op ++ dq ++ value ++ dq ++ "]".

(** Lines 146-159. *)
Definition link_selectors : list string := [
  "a" ++ attr "href" "*=" "/prd/";
  "a" ++ attr "href" "*=" "asos.com" ++ attr "href" "*=" "/prd/";
  "a" ++ attr "class" "*=" "productLink";
  "a" ++ attr "data-testid" "*=" "product";
  "a" ++ attr "data-auto-id" "*=" "product";
  "a" ++ attr "href" "*=" "product";
  "a" ++ attr "class" "*=" "product";
  "a" ++ attr "data-testid" "=" "product-link";
  "a" ++ attr "data-auto-id" "=" "product-link";
  "a" ++ attr "class" "*=" "product-card";
  "a" ++ attr "class" "*=" "product-tile";
  "a" ++ attr "class" "*=" "product-item"].

(** Line 170: [href and 'asos.com' in href and '/prd/' in href]. *)
Definition valid_href (h : option string) : bool :=
  match h with
  | Some s => Py.truthy s && Py.contains "asos.com" s && Py.contains "/prd/" s
  | None => false
  end.

(** Lines 167-174: the valid hrefs of the elements found, in order; an
    element whose [get_attribute] raises is skipped. *)
Fixpoint hrefs_of (links : list (result (option string))) : list string :=
  match links with
  | [] => []
  | Ok (Some s) :: r => if valid_href (Some s) then s :: hrefs_of r else hrefs_of r
  | _ :: r => hrefs_of r
  end.

(** What one selector of the loop contributes: the valid hrefs of the
    elements it finds, none when [find_elements] raises. *)
Definition strategy_output
    (find : string -> result (list (result (option string)))) (s : string)
  : list string :=
  match find s with
  | Raise _ => []
  | Ok links => hrefs_of links
  end.

(** Lines 161-180: the selector loop over the accumulated
    [product_links]; a selector whose [find_elements] raises is skipped,
    and the loop stops once [product_links] is non-empty. *)
Fixpoint selector_loop
    (find : string -> result (list (result (option string))))
    (sels : list string) (acc : list string) : list string :=
  match sels with
  | [] => acc
  | s :: rest =>
      match find s with
      | Raise _ => selector_loop find rest acc
      | Ok [] => selector_loop find rest acc
      | Ok links =>
          let acc' := acc ++ hrefs_of links in
          match acc' with
          | [] => selector_loop find rest acc'
          | _ => acc'
          end
      end
  end%list.

(** Lines 192-197: the static-markup fallback. *)
Fixpoint soup_links (hrefs : list string) : list string :=
  match hrefs with
  | [] => []
  | h :: r =>
      if Py.contains "asos.com" h && Py.contains "/prd/" h then h :: soup_links r
      else if Py.prefixb "/prd/" h then ("https://www.asos.com" ++ h) :: soup_links r
      else soup_links r
  end.

(** Line 223: [list(dict.fromkeys(l))], first occurrences in order. *)
Fixpoint dedup_seen (seen : list string) (l : list string) : list string :=
  match l with
  | [] => []
  | x :: r =>
      if existsb (String.eqb x) seen then dedup_seen seen r
      else x :: dedup_seen (x :: seen) r
  end.

Definition dedup (l : list string) : list string := dedup_seen [] l.

(** One call of the undecorated [get_product_links(category_url)]:
    [nav] is the outcome of [driver.get(category_url)] and [now] is
    [int(time.time())]. *)
Definition attempt (category_url : string) (nav : result CategoryPage) (now : Z)
  : result (list string) * list effect :=
  match nav with
  | Raise e => (Raise e, [Navigate category_url])
  | Ok p =>
      if negb (Py.contains "asos.com" (cp_current_url p)) then
        (Raise (Exn "Exception" "Redirected to unexpected URL"), [Navigate category_url])
      else
        match cp_scroll p with
        | Raise e => (Raise e, [Navigate category_url])
        | Ok _ =>
            match selector_loop (cp_find_elements p) link_selectors [] with
            | [] =>
                let eff := [Navigate category_url;
                            WriteFile "asos_debug_" now (cp_source p)] in
                match soup_links (cp_anchor_hrefs p) with
                | [] => (Raise (Exn "TimeoutException"
                                   "Could not find any product elements on the page"), eff)
                | fb => (Ok fb, eff)
                end
            | pl => (Ok (dedup pl), [Navigate category_url])
            end
        end
  end.

(** The test of line 170 on a link known to be a string: it contains
    "asos.com" and "/prd/". *)
Definition product_link (s : string) : Prop :=
  Py.contains "asos.com" s = true /\ Py.contains "/prd/" s = true.

End Links.

(* ------------------------------------------------------------------ *)
(** ** tenacity's [Retrying] *)

Module Retry.

(** [wait_exponential(multiplier, min, max)] after attempt
    [attempt_number]: [max(max(0, min), min(multiplier * 2 ** (n - 1), max))]. *)
Definition wait_exponential (multiplier mn mx : Z) (attempt_number : nat) : Z :=
  Z.max (Z.max 0 mn) (Z.min (multiplier * 2 ^ (Z.of_nat attempt_number - 1)) mx).

(** [stop_after_attempt(max_attempt_number)] *)
Definition stop_after_attempt (max_attempt_number attempt_number : nat) : bool :=
  (max_attempt_number <=? attempt_number)%nat.

Section Loop.
Context {A : Type}.
Variable stop : nat -> bool.
Variable wait : nat -> Z.
(** The wrapped call at a given attempt number, with its effects. *)
Variable op : nat -> result A * list effect.

(** The attempt loop: the result, the number of the last attempt, the
    sleeps, and the effects of all attempts.  On a failed attempt the stop
    condition is checked first; if it holds, [RetryError] wraps the last
    exception (tenacity's [reraise=False]).  [fuel] bounds the recursion;
    [retry_fuel_irrelevant] below shows it never cuts the loop short when it is
    at least the number of attempts the stop condition allows. *)
Fixpoint retry_from (fuel attempt_number : nat)
  : result A * nat * list Z * list effect :=
  let '(r, eff) := op attempt_number in
  match r with
  | Ok v => (Ok v, attempt_number, [], eff)
  | Raise e =>
      if stop attempt_number then (Raise (RetryError e), attempt_number, [], eff)
      else
        match fuel with
        | O => (Raise (RetryError e), attempt_number, [], eff)
        | S fuel' =>
            let '(r', n, ws, eff') := retry_from fuel' (S attempt_number) in
            (r', n, wait attempt_number :: ws, app eff eff')
        end
  end.

End Loop.

(** [@retry(stop=stop_after_attempt(3), wait=wait_exponential(multiplier=1,
    min=4, max=10))] applied to a call whose attempt [n] behaves as
    [op n]. *)
Definition decorated {A} (op : nat -> result A * list effect)
  : result A * nat * list Z * list effect :=
  retry_from (stop_after_attempt 3) (wait_exponential 1 4 10) op 3 1.

(** The decorated [get_product_links(category_url)]: attempt [n] sees the
    navigation outcome [navs n] at time [clock n]. *)
Definition get_product_links (category_url : string)
    (navs : nat -> result Links.CategoryPage) (clock : nat -> Z)
  : result (list string) * nat * list Z * list effect :=
  decorated (fun n => Links.attempt category_url (navs n) (clock n)).

End Retry.

(* ------------------------------------------------------------------ *)
(** ** [main.py] and [DataStorage.process_data] *)

Module Main.

(** Lines 15-17 of [main.py]. *)
Definition validate_asos_url (url : string) : bool :=
  Py.prefixb "https://www.asos.com/" url && Py.contains "/cat/" url.

(** [s.rstrip(chars)] *)
Definition rstrip_chars (chars s : string) : string :=
  Py.rev_string (Py.lstrip_by (fun c => Py.mem_char c chars) (Py.rev_string s)).

(** [l[-k]] for [k >= 1]: [None] stands for the [IndexError]. *)
Definition neg_index {A} (l : list A) (k : nat) : option A :=
  if (k <=? List.length l)%nat then nth_error l (List.length l - k) else None.

(** Lines 21-26: the body of the [try] of [extract_category_name]. *)
Definition category_of (url : string) : result string :=
  match Py.index (Py.split "?" url) 0 with
  | None => Raise (Exn "IndexError" "list index out of range")
  | Some u =>
      let clean_url := rstrip_chars "/" u in
      match neg_index (Py.split "/" clean_url) 2 with
      | Some category => Ok category
      | None => Raise (Exn "IndexError" "list index out of range")
      end
  end.

(** Lines 19-28: the bare [except] turns every exception into the
    default name. *)
Definition extract_category_name (url : string) : string :=
  match category_of url with
  | Ok category => category
  | Raise _ => "unknown_category"
  end.

(** [d.get(k, default)] *)
Definition get_or (k : string) (d : dict) (default : pyval) : pyval :=
  match dget k d with Some v => v | None => default end.

(** Lines 111-138: the record stored for the [i]-th link, scraped at the
    time [scraped_at] ([datetime.now().isoformat()]). *)
Definition format_product (site link scraped_at category_name : string) (i : nat)
    (product_data : dict) : dict :=
  [("product_id", get_or "id" product_data (PStr (string_of_nat i)));
   ("source", PDict [("website", PStr site); ("url", PStr link);
                     ("scraped_at", PStr scraped_at);
                     ("category", PStr category_name)]);
   ("product_info", PDict
      [("name", get_or "name" product_data (PStr ""));
       ("price", get_or "price" product_data (PFloat (PyNum.Finite 0)));
       ("currency", PStr "GBP");
       ("description", get_or "description" product_data (PStr ""));
       ("sizes", get_or "sizes" product_data (PList []));
       ("colors", get_or "colors" product_data (PList []));
       ("images", get_or "images" product_data (PList []));
       ("materials", get_or "materials" product_data (PList []));
       ("details", get_or "details" product_data (PList []));
       ("product_code", get_or "product_code" product_data (PStr ""));
       ("brand", get_or "brand" product_data (PStr ""));
       ("brand_details", get_or "brand_details" product_data (PStr ""));
       ("about_me", get_or "about_me" product_data (PStr ""));
       ("saved_count", get_or "saved_count" product_data PNone);
       ("ratings", get_or "ratings" product_data (PDict []));
       ("recent_review", get_or "recent_review" product_data (PDict []))]);
   ("reviews", get_or "reviews" product_data (PList []))].

(** Lines 101-178: the records appended to [scraped_products] by the loop
    [for i, link in enumerate(product_links, 1)], the [i]-th link being
    scraped at the time [stamp i] (for its debug files) and its record
    dated [iso i].  An exception of [scrape_product] skips the link, an
    empty dict too; the saving that follows the append catches its own
    exceptions, so it has no say in the list. *)
Fixpoint product_loop (site category_name : string)
    (visit : string -> result ProductPage) (stamp : nat -> Z)
    (iso : nat -> string) (i : nat) (links : list string) : list dict :=
  match links with
  | [] => []
  | link :: rest =>
      let recs := product_loop site category_name visit stamp iso (S i) rest in
      match fst (Product.scrape_product link (visit link) (stamp i)) with
      | Ok product_data =>
          if Product.nonempty_dict product_data
          then format_product site link (iso i) category_name i product_data :: recs
          else recs
      | Raise _ => recs
      end
  end.

(** A UTF-8 continuation byte [10xxxxxx]. *)
Definition is_continuation (c : ascii) : bool :=
  (nat_of_ascii c / 64 =? 2)%nat.

(** The characters of a string, each a lead byte with its continuation
    bytes. *)
Fixpoint utf8_chars_aux (s : string) (cur : string) : list string :=
  match s with
  | EmptyString => if String.eqb cur "" then [] else [cur]
  | String c s' =>
      if is_continuation c then utf8_chars_aux s' (cur ++ String c "")
      else (if String.eqb cur "" then [] else [cur]) ++ utf8_chars_aux s' (String c "")
  end.

Definition utf8_chars (s : string) : list string := utf8_chars_aux s "".

(** [len(v)] *)
Definition py_len (v : pyval) : result nat :=
  match v with
  | PStr s => Ok (List.length (utf8_chars s))
  | PList l => Ok (List.length l)
  | PDict d => Ok (List.length d)
  | _ => Raise (Exn "TypeError" "object has no len()")
  end.

Fixpoint strs_of (l : list pyval) : option (list string) :=
  match l with
  | [] => Some []
  | PStr s :: r => match strs_of r with Some ss => Some (s :: ss) | None => None end
  | _ :: _ => None
  end.

(** [sep.join(v)]: a list of strings, the keys of a dict or the
    characters of a string. *)
Definition py_join (sep : string) (v : pyval) : result string :=
  match v with
  | PList l =>
      match strs_of l with
      | Some ss => Ok (String.concat sep ss)
      | None => Raise (Exn "TypeError" "sequence item: expected str instance")
      end
  | PDict d => Ok (String.concat sep (map fst d))
  | PStr s => Ok (String.concat sep (utf8_chars s))
  | _ => Raise (Exn "TypeError" "can only join an iterable")
  end.

(** [v[k]] with a string key. *)
Definition getitem (v : pyval) (k : string) : result pyval :=
  match v with
  | PDict d => match dget k d with
               | Some x => Ok x
               | None => Raise (Exn "KeyError" k)
               end
  | _ => Raise (Exn "TypeError" "object is not subscriptable by str")
  end.

Definition rbind {A B} (r : result A) (f : A -> result B) : result B :=
  match r with Ok v => f v | Raise e => Raise e end.

Notation "x <- r ;; f" := (rbind r (fun x => f))
  (at level 61, r at next level, right associativity).

(** Lines 67-85 of [utils/data_storage.py]: the flat row of one item. *)
Definition flat_item (item : dict) : result dict :=
  product_info <- getitem (PDict item) "product_info" ;;
  source <- getitem (PDict item) "source" ;;
  product_id <- getitem (PDict item) "product_id" ;;
  website <- getitem source "website" ;;
  url <- getitem source "url" ;;
  scraped_at <- getitem source "scraped_at" ;;
  name <- getitem product_info "name" ;;
  price <- getitem product_info "price" ;;
  currency <- getitem product_info "currency" ;;
  description <- getitem product_info "description" ;;
  sizes <- getitem product_info "sizes" ;;
  sizes_s <- py_join "," sizes ;;
  colors <- getitem product_info "colors" ;;
  colors_s <- py_join "," colors ;;
  images <- getitem product_info "images" ;;
  images_s <- py_join "," images ;;
  review_count <- py_len (get_or "reviews" item (PList [])) ;;
  Ok [("product_id", product_id); ("website", website); ("url", url);
      ("scraped_at", scraped_at); ("name", name); ("price", price);
      ("currency", currency); ("description", description);
      ("sizes", PStr sizes_s); ("colors", PStr colors_s);
      ("images", PStr images_s);
      ("review_count", PInt (Z.of_nat review_count))].

(** Lines 63-87: the rows of the DataFrame, in order. *)
Fixpoint process_data (data : list dict) : result (list dict) :=
  match data with
  | [] => Ok []
  | item :: rest =>
      row <- flat_item item ;;
      rows <- process_data rest ;;
      Ok (row :: rows)
  end.

End Main.

(* ------------------------------------------------------------------ *)
(** ** Concrete pages *)

Module Fixtures.

Definition timeout_exn : exn := Exn "TimeoutException" "Message: ".

(** A product page on which every looked-up element is missing, apart
    from the ones the caller sets. *)
Definition bare_product (source : string) (price : result string)
    (h1 brand : option string) : ProductPage := {|
  pp_source := source;
  pp_wait := Ok tt;
  pp_price := price;
  pp_h1 := h1;
  pp_brand_link := brand;
  pp_brand_section := None;
  pp_about_section := None;
  pp_saved := None;
  pp_ratings_block := None;
  pp_recommend := None;
  pp_rating_bars := [];
  pp_recent := None;
  pp_live_reviews := Raise timeout_exn;
  pp_might_like := None;
  pp_people_bought := None;
  pp_description := None;
  pp_colour := None;
  pp_details := None;
  pp_code_p := None;
  pp_images := []
|}.

(** The same page with another heading and brand link. *)
Definition with_name_brand (p : ProductPage) (h1 brand : option string)
  : ProductPage := {|
  pp_source := pp_source p;
  pp_wait := pp_wait p;
  pp_price := pp_price p;
  pp_h1 := h1;
  pp_brand_link := brand;
  pp_brand_section := pp_brand_section p;
  pp_about_section := pp_about_section p;
  pp_saved := pp_saved p;
  pp_ratings_block := pp_ratings_block p;
  pp_recommend := pp_recommend p;
  pp_rating_bars := pp_rating_bars p;
  pp_recent := pp_recent p;
  pp_live_reviews := pp_live_reviews p;
  pp_might_like := pp_might_like p;
  pp_people_bought := pp_people_bought p;
  pp_description := pp_description p;
  pp_colour := pp_colour p;
  pp_details := pp_details p;
  pp_code_p := pp_code_p p;
  pp_images := pp_images p
|}.

Definition dress_url : string := "https://www.asos.com/asos-design/dress/prd/12345".

(** A product page without a price element, whose heading and brand link
    were found. *)
Definition no_price_page : ProductPage :=
  bare_product "<h1>Midi Dress</h1><a href=/brand/nike>Nike</a>" (Raise timeout_exn)
    (Some "Midi Dress") (Some "Nike").

(** A product page with only a price. *)
Definition price_only_page : ProductPage :=
  bare_product "<span>£85.00</span>" (Ok "£85.00") None None.

(** A product page whose price cannot be read as a number. *)
Definition tbc_price_page : ProductPage :=
  bare_product "<span>£TBC</span>" (Ok "£TBC") None None.

Definition challenge_page : ProductPage :=
  bare_product "<p>Please verify you are human</p>" (Raise timeout_exn) None None.

Definition category_url : string :=
  "https://www.asos.com/women/dresses/cat/?cid=8799".

(** A category page whose live-DOM lookups all return nothing, so that the
    static-markup fallback runs over the given anchors. *)
Definition fallback_page (hrefs : list string) : Links.CategoryPage := {|
  Links.cp_current_url := category_url;
  Links.cp_scroll := Ok tt;
  Links.cp_find_elements := fun _ => Ok [];
  Links.cp_anchor_hrefs := hrefs;
  Links.cp_source := "<html></html>"
|}.

(** A category page with [<base href="https://images.example/">] and two
    anchors [href="/prd/12345"]: the browser resolves them off the site,
    so only the static markup sees a product link, twice. *)
Definition base_tag_page : Links.CategoryPage := {|
  Links.cp_current_url := category_url;
  Links.cp_scroll := Ok tt;
  Links.cp_find_elements := fun s =>
    if String.eqb s ("a" ++ Links.attr "href" "*=" "/prd/")
    then Ok [Ok (Some "https://images.example/prd/12345");
             Ok (Some "https://images.example/prd/12345")]
    else Ok [];
  Links.cp_anchor_hrefs := ["/prd/12345"; "/prd/12345"];
  Links.cp_source := "<base href=x><a href=/prd/12345>A</a><a href=/prd/12345>A</a>"
|}.

(** A category page after a redirect off the site. *)
Definition redirected_page : Links.CategoryPage := {|
  Links.cp_current_url := "https://consent.example.com/";
  Links.cp_scroll := Ok tt;
  Links.cp_find_elements := fun _ => Ok [];
  Links.cp_anchor_hrefs := [];
  Links.cp_source := "<html></html>"
|}.

(** A category page whose first selector finds two links, one of them
    twice. *)
Definition live_page : Links.CategoryPage := {|
  Links.cp_current_url := category_url;
  Links.cp_scroll := Ok tt;
  Links.cp_find_elements := fun s =>
    if String.eqb s ("a" ++ Links.attr "href" "*=" "/prd/")
    then Ok [Ok (Some "https://www.asos.com/prd/1");
             Ok (Some "https://www.asos.com/prd/1");
             Ok None;
             Ok (Some "https://www.asos.com/prd/2")]
    else Ok [];
  Links.cp_anchor_hrefs := [];
  Links.cp_source := "<html></html>"
|}.
(** The same page with another outcome of [wait_for_page_load]. *)
Definition with_wait (p : ProductPage) (w : result unit) : ProductPage := {|
  pp_source := pp_source p;
  pp_wait := w;
  pp_price := pp_price p;
  pp_h1 := pp_h1 p;
  pp_brand_link := pp_brand_link p;
  pp_brand_section := pp_brand_section p;
  pp_about_section := pp_about_section p;
  pp_saved := pp_saved p;
  pp_ratings_block := pp_ratings_block p;
  pp_recommend := pp_recommend p;
  pp_rating_bars := pp_rating_bars p;
  pp_recent := pp_recent p;
  pp_live_reviews := pp_live_reviews p;
  pp_might_like := pp_might_like p;
  pp_people_bought := pp_people_bought p;
  pp_description := pp_description p;
  pp_colour := pp_colour p;
  pp_details := pp_details p;
  pp_code_p := pp_code_p p;
  pp_images := pp_images p
|}.

(** The same page with the given recommendation carousels. *)
Definition with_related (p : ProductPage) (might people : option (list CarouselItem))
  : ProductPage := {|
  pp_source := pp_source p;
  pp_wait := pp_wait p;
  pp_price := pp_price p;
  pp_h1 := pp_h1 p;
  pp_brand_link := pp_brand_link p;
  pp_brand_section := pp_brand_section p;
  pp_about_section := pp_about_section p;
  pp_saved := pp_saved p;
  pp_ratings_block := pp_ratings_block p;
  pp_recommend := pp_recommend p;
  pp_rating_bars := pp_rating_bars p;
  pp_recent := pp_recent p;
  pp_live_reviews := pp_live_reviews p;
  pp_might_like := might;
  pp_people_bought := people;
  pp_description := pp_description p;
  pp_colour := pp_colour p;
  pp_details := pp_details p;
  pp_code_p := pp_code_p p;
  pp_images := pp_images p
|}.

Definition good_item : CarouselItem := {|
  ci_a := Some (Some "/prd/1", Some "Midi Dress. £20.00", None);
  ci_img := Some (Some "img.jpg");
  ci_price := Some "£20.00"
|}.

(** An item whose link has no [href]. *)
Definition hrefless_item : CarouselItem := {|
  ci_a := Some (None, Some "Midi Dress. £20.00", None);
  ci_img := Some (Some "img.jpg");
  ci_price := Some "£20.00"
|}.

Definition recommended_page : ProductPage :=
  with_related price_only_page (Some [good_item; hrefless_item])
    (Some [good_item]).

(** The same page with a ratings block and the given rating bars. *)
Definition with_ratings (p : ProductPage) (blk : option string * option string)
    (bars : list (option (option string))) : ProductPage := {|
  pp_source := pp_source p;
  pp_wait := pp_wait p;
  pp_price := pp_price p;
  pp_h1 := pp_h1 p;
  pp_brand_link := pp_brand_link p;
  pp_brand_section := pp_brand_section p;
  pp_about_section := pp_about_section p;
  pp_saved := pp_saved p;
  pp_ratings_block := Some blk;
  pp_recommend := pp_recommend p;
  pp_rating_bars := bars;
  pp_recent := pp_recent p;
  pp_live_reviews := pp_live_reviews p;
  pp_might_like := pp_might_like p;
  pp_people_bought := pp_people_bought p;
  pp_description := pp_description p;
  pp_colour := pp_colour p;
  pp_details := pp_details p;
  pp_code_p := pp_code_p p;
  pp_images := pp_images p
|}.

(** A priced page whose fit bar style has no colon. *)
Definition rated_page : ProductPage :=
  with_ratings price_only_page (Some "4.5", Some "(12)")
    [Some (Some "width 85%"); Some (Some "width: 90%;")].

End Fixtures.

(* ================================================================== *)
(** * Properties *)

(** ** Dict lemmas *)

Lemma dget_dset_same (k : string) (v : pyval) (d : dict) :
  dget k (dset k v d) = Some v.
Proof.
  induction d as [| [k' v'] d IH]; simpl.
  - now rewrite String.eqb_refl.
  - destruct (String.eqb_spec k k') as [<- | Hne]; simpl.
    + now rewrite String.eqb_refl.
    + apply String.eqb_neq in Hne. now rewrite Hne.
Qed.

Lemma dget_dset_other (k k' : string) (v : pyval) (d : dict) :
  k <> k' -> dget k (dset k' v d) = dget k d.
Proof.
  intros Hne. induction d as [| [k0 v0] d IH]; simpl.
  - apply String.eqb_neq in Hne. now rewrite Hne.
  - destruct (String.eqb_spec k' k0) as [<- | Hne0]; simpl.
    + apply String.eqb_neq in Hne. now rewrite Hne.
    + destruct (String.eqb k k0); [reflexivity | exact IH].
Qed.

(** Reads a key through a chain of writes to literal keys. *)
Ltac dget_simpl :=
  repeat first
    [ rewrite dget_dset_same
    | rewrite dget_dset_other by (let H := fresh in intro H; discriminate H) ].

Lemma live_reviews_keeps (p : ProductPage) (d d' : dict) (l : list pyval)
    (logs : list effect) (k : string) :
  Product.live_reviews p d = (d', l, logs) ->
  k <> "overall_rating" -> k <> "total_reviews" ->
  dget k d' = dget k d.
Proof.
  intros E H1 H2. unfold Product.live_reviews in E.
  destruct (pp_live_reviews p) as [lr | e].
  - destruct (lr_overall lr) as [t | e]; [| inversion E; reflexivity].
    destruct (lr_total lr) as [t2 | e];
      [destruct (Product.total_reviews_of (Py.strip t2)) |];
      inversion E; subst;
      repeat (rewrite dget_dset_other by assumption); reflexivity.
  - inversion E; reflexivity.
Qed.

Lemma live_reviews_none (p : ProductPage) (d d' : dict) (l : list pyval)
    (logs : list effect) (e : exn) :
  pp_live_reviews p = Raise e ->
  Product.live_reviews p d = (d', l, logs) -> l = [].
Proof.
  intros He E. unfold Product.live_reviews in E. rewrite He in E.
  now inversion E.
Qed.

Lemma related_keeps (p : ProductPage) (d d' : dict) (logs : list effect)
    (k : string) :
  Product.related p d = (d', logs) ->
  k <> "people_also_like" -> k <> "people_also_bought" ->
  dget k d' = dget k d.
Proof.
  intros E H1 H2. unfold Product.related in E.
  destruct (pp_might_like p) as [items |];
    [destruct (Product.carousel items) |]; simpl in E;
    try (inversion E; reflexivity);
    (destruct (pp_people_bought p) as [items2 |];
     [destruct (Product.carousel items2) |]);
    inversion E; subst;
    repeat (rewrite dget_dset_other by assumption); reflexivity.
Qed.

(** What a successful [extract] holds: the URL, the price exactly when
    the price element was found, and the six sections. *)
Lemma extract_ok (p : ProductPage) (u : string) (d : dict) (logs : list effect) :
  Product.extract p u = (Ok d, logs) ->
  exists r l,
    Product.ratings_of p = Ok r /\
    dget "url" d = Some (PStr u) /\
    dget "price" d = match pp_price p with
                     | Ok t => Some (Product.price_value t)
                     | Raise _ => None
                     end /\
    dget "ratings" d = Some (PDict r) /\
    dget "recent_review" d = Some (PDict (Product.recent_review_of p)) /\
    dget "all_reviews" d = Some (PList l) /\
    (forall e, pp_live_reviews p = Raise e -> l = []) /\
    dget "images" d = Some (PList (Product.image_urls (pp_images p))) /\
    dget "details" d = Some (PList (Product.details_of p)) /\
    dget "colors" d = Some (PList (match Product.colour_of p with
                                   | Some c => if Py.truthy c then [PStr c] else []
                                   | None => []
                                   end)).
Proof.
  unfold Product.extract. intros E.
  destruct (Product.price_step p []) as [d0 logs0] eqn:Hp.
  destruct (Product.ratings_of p) as [r | e]; [| discriminate].
  match type of E with
  | context [Product.live_reviews p ?d7] =>
      destruct (Product.live_reviews p d7) as [[d8 revs] logs1] eqn:Hl
  end.
  match type of E with
  | context [Product.related p ?d9] =>
      destruct (Product.related p d9) as [d10 logs2] eqn:Hr
  end.
  inversion E; subst d; clear E.
  exists r, revs.
  assert (Hd0 : dget "price" d0 = match pp_price p with
                                  | Ok t => Some (Product.price_value t)
                                  | Raise _ => None
                                  end).
  { unfold Product.price_step in Hp.
    destruct (pp_price p); inversion Hp; subst; simpl;
      reflexivity. }
  assert (Hlv : forall e, pp_live_reviews p = Raise e -> revs = []).
  { intros e He. exact (live_reviews_none _ _ _ _ _ _ He Hl). }
  destruct (pp_description p);
  repeat split; try exact Hlv; dget_simpl; try reflexivity;
  rewrite (related_keeps _ _ _ _ _ Hr) by discriminate; dget_simpl;
  try reflexivity;
  rewrite (live_reviews_keeps _ _ _ _ _ _ Hl) by discriminate; dget_simpl;
  try reflexivity;
  destruct (pp_brand_link p); destruct (pp_h1 p); dget_simpl; exact Hd0.
Qed.

(** A record comes back only from a loaded, unchallenged page whose
    extraction completed with a price. *)
Lemma scrape_product_ok (url : string) (nav : result ProductPage) (now : Z)
    (d : dict) (eff : list effect) :
  Product.scrape_product url nav now = (Ok d, eff) ->
  exists p logs,
    nav = Ok p /\ Product.bot_detected p = false /\
    Product.extract p url = (Ok d, logs) /\ has_key "price" d = true.
Proof.
  unfold Product.scrape_product. intros E.
  destruct nav as [p | e]; [| discriminate].
  destruct (Product.bot_detected p) eqn:Hb; [discriminate |].
  destruct (Product.extract p url) as [[d' | e] logs] eqn:Hx; [| discriminate].
  destruct (has_key "price" d') eqn:Hk; [| discriminate].
  inversion E; subst. exists p, logs. auto.
Qed.

(** ** C10: the shape of a returned product record *)

(** C10: every record [scrape_product] returns has its [url] equal to the
    product URL it was given and a [price] key, and it always carries the
    keys [ratings], [recent_review], [all_reviews], [images], [details]
    and [colors], which hold an empty dict or list when their page section
    is missing.  Conversely a missing optional section never makes the
    call fail: a page with a price and no challenge whose ratings block
    (or both rating bars) is missing yields a record. *)
Theorem scrape_product_record_keys :
  (forall (url : string) (nav : result ProductPage) (now : Z) (d : dict)
          (eff : list effect),
     Product.scrape_product url nav now = (Ok d, eff) ->
     exists p,
       nav = Ok p /\
       dget "url" d = Some (PStr url) /\ has_key "price" d = true /\
       (exists r, dget "ratings" d = Some (PDict r) /\
                  (pp_ratings_block p = None -> r = [])) /\
       (exists r, dget "recent_review" d = Some (PDict r) /\
                  (pp_recent p = None -> r = [])) /\
       (exists l, dget "all_reviews" d = Some (PList l) /\
                  (forall e, pp_live_reviews p = Raise e -> l = [])) /\
       (exists l, dget "images" d = Some (PList l) /\
                  (pp_images p = [] -> l = [])) /\
       (exists l, dget "details" d = Some (PList l) /\
                  (pp_details p = None -> l = [])) /\
       (exists l, dget "colors" d = Some (PList l) /\
                  (pp_colour p = None -> l = []))) /\
  (forall (url : string) (p : ProductPage) (now : Z) (t : string),
     pp_price p = Ok t -> Product.bot_detected p = false ->
     (pp_ratings_block p = None \/ pp_rating_bars p = []) ->
     exists d eff, Product.scrape_product url (Ok p) now = (Ok d, eff)).
Proof.
  split.
  - intros url nav now d eff E.
    destruct (scrape_product_ok _ _ _ _ _ E) as (p & logs & -> & _ & Hx & Hk).
    destruct (extract_ok _ _ _ _ Hx)
      as (r & l & Hr & Hu & _ & Hra & Hre & Hal & Hl & Him & Hde & Hco).
    exists p. split; [reflexivity |].
    split; [exact Hu |]. split; [exact Hk |].
    split; [exists r; split; [exact Hra |] |].
    { intros Hn. unfold Product.ratings_of in Hr. rewrite Hn in Hr.
      now inversion Hr. }
    split; [eexists; split; [exact Hre |] |].
    { intros Hn. unfold Product.recent_review_of. now rewrite Hn. }
    split; [exists l; split; [exact Hal | exact Hl] |].
    split; [eexists; split; [exact Him |] |].
    { intros Hn. now rewrite Hn. }
    split; [eexists; split; [exact Hde |] |].
    { intros Hn. unfold Product.details_of. now rewrite Hn. }
    eexists; split; [exact Hco |].
    intros Hn. unfold Product.colour_of. now rewrite Hn.
  - intros url p now t Hp Hb Habs.
    assert (Hr : exists r, Product.ratings_of p = Ok r).
    { unfold Product.ratings_of.
      destruct Habs as [Hn | Hn]; rewrite Hn; [eauto |].
      destruct (pp_ratings_block p) as [[o t0] |]; eauto. }
    destruct Hr as [r Hr].
    destruct (Product.extract p url) as [[d | e] logs] eqn:Hx.
    + destruct (extract_ok _ _ _ _ Hx) as (r' & l & _ & _ & Hpr & _).
      rewrite Hp in Hpr.
      exists d. unfold Product.scrape_product. rewrite Hb, Hx.
      unfold has_key. rewrite Hpr. eauto.
    + exfalso. unfold Product.extract in Hx. rewrite Hr in Hx.
      destruct (Product.price_step p []) as [d0 l0].
      destruct (Product.live_reviews _ _) as [[d8 revs] l1].
      destruct (Product.related _ _) as [d10 l2].
      discriminate.
Qed.

(** C10 at a page holding only a price. *)
Lemma scrape_product_record_keys_witness :
  exists d eff,
    Product.scrape_product Fixtures.dress_url (Ok Fixtures.price_only_page) 0%Z = (Ok d, eff).
Proof.
  apply (proj2 scrape_product_record_keys Fixtures.dress_url
           Fixtures.price_only_page 0%Z "£85.00");
    [reflexivity | reflexivity | left; reflexivity].
Defined.

(** ** C2: the price gate *)

Lemma live_reviews_logs (p : ProductPage) (d1 d2 : dict) :
  snd (Product.live_reviews p d1) = snd (Product.live_reviews p d2).
Proof.
  unfold Product.live_reviews.
  destruct (pp_live_reviews p) as [lr | e]; [| reflexivity].
  destruct (lr_overall lr); [| reflexivity].
  destruct (lr_total lr); [destruct (Product.total_reviews_of _) |]; reflexivity.
Qed.

Lemma related_logs (p : ProductPage) (d1 d2 : dict) :
  snd (Product.related p d1) = snd (Product.related p d2).
Proof.
  unfold Product.related.
  destruct (pp_might_like p) as [items |]; [destruct (Product.carousel items) |];
    simpl; try reflexivity;
    destruct (pp_people_bought p) as [items2 |];
    try destruct (Product.carousel items2); reflexivity.
Qed.

(** The heading and the brand link change neither the records logged by
    [extract] nor whether it raises. *)
Lemma extract_name_brand (p : ProductPage) (h b : option string) (u : string) :
  snd (Product.extract (Fixtures.with_name_brand p h b) u) = snd (Product.extract p u) /\
  (forall e, fst (Product.extract (Fixtures.with_name_brand p h b) u) = Raise e <->
             fst (Product.extract p u) = Raise e).
Proof.
  unfold Product.extract.
  change (Product.price_step (Fixtures.with_name_brand p h b) [])
    with (Product.price_step p []).
  change (Product.ratings_of (Fixtures.with_name_brand p h b))
    with (Product.ratings_of p).
  destruct (Product.price_step p []) as [d0 l0].
  destruct (Product.ratings_of p) as [r | e]; [| split; reflexivity].
  cbn [Fixtures.with_name_brand pp_h1 pp_brand_link pp_brand_section
       pp_about_section pp_saved pp_description pp_colour pp_details
       pp_code_p pp_images].
  change (Product.live_reviews (Fixtures.with_name_brand p h b))
    with (Product.live_reviews p).
  change (Product.related (Fixtures.with_name_brand p h b))
    with (Product.related p).
  change (Product.recent_review_of (Fixtures.with_name_brand p h b))
    with (Product.recent_review_of p).
  change (Product.colour_of (Fixtures.with_name_brand p h b))
    with (Product.colour_of p).
  change (Product.details_of (Fixtures.with_name_brand p h b))
    with (Product.details_of p).
  match goal with
  | |- context [Product.live_reviews p ?a] =>
      match goal with
      | |- context [Product.live_reviews p ?c] =>
          assert (Hl := live_reviews_logs p a c);
          destruct (Product.live_reviews p a) as [[a8 ar] al];
          destruct (Product.live_reviews p c) as [[c8 cr] cl];
          simpl in Hl; subst al
      end
  end.
  match goal with
  | |- context [Product.related p ?a] =>
      match goal with
      | |- context [Product.related p ?c] =>
          assert (Hr := related_logs p a c);
          destruct (Product.related p a) as [a10 al];
          destruct (Product.related p c) as [c10 cl'];
          simpl in Hr; subst al
      end
  end.
  simpl. split; [reflexivity |]. intros e; split; intros H; discriminate.
Qed.

(** C2, as stated, fails: on a page without a price element whose
    heading "Midi Dress" and brand link "Nike" were found, [scrape_product]
    raises, and none of the records it logs mentions the name or the
    brand; the only trace of the page is the raw markup written to the
    debug file. *)
Lemma scrape_product_partial_fields_dropped :
  fst (Product.scrape_product Fixtures.dress_url (Ok Fixtures.no_price_page) 0%Z)
    = Raise (Exn "Exception" "Could not find any product details") /\
  (forall lvl m,
     In (Log lvl m) (snd (Product.scrape_product Fixtures.dress_url
                            (Ok Fixtures.no_price_page) 0%Z)) ->
     Py.contains "Midi Dress" m = false /\ Py.contains "Nike" m = false).
Proof.
  split; [reflexivity |].
  intros lvl m H. vm_compute in H.
  repeat (destruct H as [H | H]; [inversion H; subst; split; vm_compute; reflexivity |]).
  destruct H.
Qed.

(** C2 (amended): when the price element is missing, [scrape_product]
    raises "Could not find any product details" for that URL after writing
    the raw page source to a debug file, and returns no record; the name
    and brand it had resolved are neither returned nor logged (the outcome
    is the same whatever the heading and brand link are).  When the price
    element is found and the field code raises nothing, a record carrying
    that price is returned, whatever the other fields are. *)
Theorem scrape_product_price_gate :
  (forall (url : string) (p : ProductPage) (now : Z) (e : exn),
     pp_price p = Raise e -> Product.bot_detected p = false ->
     exists eff,
       Product.scrape_product url (Ok p) now
         = (Raise (Exn "Exception" "Could not find any product details"), eff) /\
       In (WriteFile "asos_product_debug_" now (pp_source p)) eff /\
       (forall h b, Product.scrape_product url (Ok (Fixtures.with_name_brand p h b)) now
                    = Product.scrape_product url (Ok p) now)) /\
  (forall (url : string) (p : ProductPage) (now : Z) (t : string),
     pp_price p = Ok t -> Product.bot_detected p = false ->
     (exists r, Product.ratings_of p = Ok r) ->
     exists d eff,
       Product.scrape_product url (Ok p) now = (Ok d, eff) /\
       dget "price" d = Some (Product.price_value t)).
Proof.
  split.
  - intros url p now e Hp Hb.
    assert (Hb' : forall h b, Product.bot_detected (Fixtures.with_name_brand p h b)
                              = Product.bot_detected p) by reflexivity.
    assert (Hsame : forall h b, Product.scrape_product url (Ok (Fixtures.with_name_brand p h b)) now
                                = Product.scrape_product url (Ok p) now).
    { intros h b. unfold Product.scrape_product. rewrite Hb', Hb.
      destruct (extract_name_brand p h b url) as [Hlogs Hraise].
      change (Product.wait_logs (Fixtures.with_name_brand p h b)) with (Product.wait_logs p).
      change (pp_source (Fixtures.with_name_brand p h b)) with (pp_source p).
      destruct (Product.extract p url) as [[d | e1] logs] eqn:Hx;
        destruct (Product.extract (Fixtures.with_name_brand p h b) url)
          as [[d' | e2] logs'] eqn:Hx'; simpl in Hlogs, Hraise; subst logs'.
      + destruct (extract_ok _ _ _ _ Hx) as (_ & _ & _ & _ & Hpr & _).
        destruct (extract_ok _ _ _ _ Hx') as (_ & _ & _ & _ & Hpr' & _).
        cbn [Fixtures.with_name_brand pp_price] in Hpr'.
        rewrite Hp in Hpr, Hpr'. unfold has_key. rewrite Hpr, Hpr'. reflexivity.
      + discriminate (proj1 (Hraise e2) eq_refl).
      + discriminate (proj2 (Hraise e1) eq_refl).
      + pose proof (proj2 (Hraise e1) eq_refl) as He. inversion He; subst.
        reflexivity. }
    enough (H : exists eff,
               Product.scrape_product url (Ok p) now
                 = (Raise (Exn "Exception" "Could not find any product details"), eff) /\
               In (WriteFile "asos_product_debug_" now (pp_source p)) eff)
      by (destruct H as (eff & H1 & H2); exists eff; auto).
    unfold Product.scrape_product. rewrite Hb.
    destruct (Product.extract p url) as [[d | e1] logs] eqn:Hx.
    + destruct (extract_ok _ _ _ _ Hx) as (_ & _ & _ & _ & Hpr & _).
      rewrite Hp in Hpr. unfold has_key. rewrite Hpr.
      eexists. split; [reflexivity |].
      rewrite !in_app_iff. simpl. tauto.
    + eexists. split; [reflexivity |].
      rewrite !in_app_iff. simpl. tauto.
  - intros url p now t Hp Hb [r Hr].
    destruct (Product.extract p url) as [[d | e] logs] eqn:Hx.
    + destruct (extract_ok _ _ _ _ Hx) as (_ & _ & _ & _ & Hpr & _).
      rewrite Hp in Hpr.
      exists d. unfold Product.scrape_product. rewrite Hb, Hx.
      unfold has_key. rewrite Hpr. eauto.
    + exfalso. unfold Product.extract in Hx. rewrite Hr in Hx.
      destruct (Product.price_step p []) as [d0 l0].
      destruct (Product.live_reviews _ _) as [[d8 revs] l1].
      destruct (Product.related _ _) as [d10 l2].
      discriminate.
Qed.

(** C2 (amended) at a page without a price, and at a page with only a
    price. *)
Lemma scrape_product_price_gate_witness :
  (exists eff,
     Product.scrape_product Fixtures.dress_url (Ok Fixtures.no_price_page) 0%Z
       = (Raise (Exn "Exception" "Could not find any product details"), eff) /\
     In (WriteFile "asos_product_debug_" 0%Z (pp_source Fixtures.no_price_page)) eff /\
     (forall h b, Product.scrape_product Fixtures.dress_url
                    (Ok (Fixtures.with_name_brand Fixtures.no_price_page h b)) 0%Z
                  = Product.scrape_product Fixtures.dress_url (Ok Fixtures.no_price_page) 0%Z)) /\
  (exists d eff,
     Product.scrape_product Fixtures.dress_url (Ok Fixtures.price_only_page) 0%Z = (Ok d, eff) /\
     dget "price" d = Some (Product.price_value "£85.00")).
Proof.
  split.
  - apply (proj1 scrape_product_price_gate Fixtures.dress_url Fixtures.no_price_page
             0%Z Fixtures.timeout_exn); reflexivity.
  - apply (proj2 scrape_product_price_gate Fixtures.dress_url Fixtures.price_only_page
             0%Z "£85.00"); [reflexivity | reflexivity | exists []; reflexivity].
Defined.

(** ** C4: bot challenges *)

Lemma navigations_app (e1 e2 : list effect) :
  navigations (e1 ++ e2)%list = (navigations e1 ++ navigations e2)%list.
Proof.
  induction e1 as [| [u | pr st c | lv m] e1 IH]; simpl; rewrite ?IH; reflexivity.
Qed.

Lemma extract_no_navigation (p : ProductPage) (u : string) :
  navigations (snd (Product.extract p u)) = [].
Proof.
  unfold Product.extract.
  assert (H0 : navigations (snd (Product.price_step p [])) = []).
  { unfold Product.price_step. destruct (pp_price p); reflexivity. }
  destruct (Product.price_step p []) as [d0 l0]. simpl in H0.
  destruct (Product.ratings_of p); [| exact H0].
  match goal with
  | |- context [Product.live_reviews p ?a] =>
      assert (H1 : navigations (snd (Product.live_reviews p a)) = []);
      [ unfold Product.live_reviews;
        destruct (pp_live_reviews p) as [lr |]; [| reflexivity];
        destruct (lr_overall lr); [| destruct (lr_click lr); reflexivity];
        destruct (lr_total lr); [destruct (Product.total_reviews_of _) |];
        destruct (lr_click lr); reflexivity
      | destruct (Product.live_reviews p a) as [[d8 revs] l1] ]
  end.
  match goal with
  | |- context [Product.related p ?a] =>
      assert (H2 : navigations (snd (Product.related p a)) = []);
      [ unfold Product.related;
        destruct (pp_might_like p) as [items |]; [destruct (Product.carousel items) |];
        simpl; try reflexivity;
        destruct (pp_people_bought p) as [items2 |];
        try destruct (Product.carousel items2); reflexivity
      | destruct (Product.related p a) as [d10 l2] ]
  end.
  simpl in *. rewrite !navigations_app, H0, H1, H2. reflexivity.
Qed.

(** Every call of [scrape_product] navigates once, to its own URL. *)
Lemma scrape_product_navigations (url : string) (nav : result ProductPage) (now : Z) :
  navigations (snd (Product.scrape_product url nav now)) = [url].
Proof.
  assert (Hw : forall p, navigations (Product.wait_logs p) = []).
  { intros p. unfold Product.wait_logs. destruct (pp_wait p); reflexivity. }
  unfold Product.scrape_product.
  destruct nav as [p | e]; [| reflexivity].
  destruct (Product.bot_detected p).
  - simpl. rewrite !navigations_app, Hw. reflexivity.
  - pose proof (extract_no_navigation p url) as Hx.
    destruct (Product.extract p url) as [[d | e] logs]; simpl in Hx;
      [destruct (has_key "price" d) |]; simpl;
      rewrite !navigations_app, Hw, Hx; reflexivity.
Qed.

Lemma scrape_all_navigations (links : list string)
    (visit : string -> result ProductPage) (now : Z) :
  navigations (snd (Product.scrape_all links visit now)) = links.
Proof.
  induction links as [| l links IH]; [reflexivity |].
  simpl.
  pose proof (scrape_product_navigations l (visit l) now) as Hs.
  destruct (Product.scrape_product l (visit l) now) as [r eff].
  destruct (Product.scrape_all links visit now) as [recs eff'].
  simpl in Hs, IH.
  destruct r; simpl; rewrite navigations_app, Hs, IH; reflexivity.
Qed.

(** C4: on a product page whose source contains a bot-challenge phrase
    ("verify you are human" or "unusual traffic", in any letter case),
    [scrape_product] writes the raw page source to a debug file and raises
    "Bot detection triggered" after a single navigation; the product loop
    of [main.py] does not retry it (each link of the list is navigated to
    once per occurrence) and keeps no record for that page. *)
Theorem scrape_product_bot_challenge (p : ProductPage) (url : string) (now : Z) :
  Py.contains "verify you are human" (Py.lower (pp_source p)) = true \/
  Py.contains "unusual traffic" (Py.lower (pp_source p)) = true ->
  (exists eff,
     Product.scrape_product url (Ok p) now
       = (Raise (Exn "Exception" "Bot detection triggered"), eff) /\
     In (WriteFile "asos_bot_detection_" now (pp_source p)) eff /\
     navigations eff = [url]) /\
  (forall links visit,
     visit url = Ok p ->
     navigations (snd (Product.scrape_all links visit now)) = links /\
     (forall d, ~ In (url, d) (fst (Product.scrape_all links visit now)))).
Proof.
  intros Hphrase.
  assert (Hb : Product.bot_detected p = true).
  { unfold Product.bot_detected.
    destruct Hphrase as [H | H]; rewrite H; [apply orb_true_r | reflexivity]. }
  split.
  - pose proof (scrape_product_navigations url (Ok p) now) as Hn.
    unfold Product.scrape_product in *. rewrite Hb in *.
    eexists. split; [reflexivity |]. split; [| exact Hn].
    rewrite !in_app_iff. simpl. tauto.
  - intros links visit Hv. split; [apply scrape_all_navigations |].
    intros d. induction links as [| l links IH]; [simpl; tauto |].
    simpl.
    destruct (String.eqb_spec l url) as [-> | Hne].
    + rewrite Hv. unfold Product.scrape_product at 1. rewrite Hb.
      destruct (Product.scrape_all links visit now) as [recs eff'] eqn:Ha.
      exact IH.
    + destruct (Product.scrape_product l (visit l) now) as [r eff].
      destruct (Product.scrape_all links visit now) as [recs eff'].
      simpl in IH.
      destruct r as [d' |]; simpl; [| exact IH].
      destruct (Product.nonempty_dict d'); simpl; [| exact IH].
      intros [H | H]; [inversion H; congruence | exact (IH H)].
Qed.

(** C4 at a page saying "Please verify you are human". *)
Lemma scrape_product_bot_challenge_witness :
  exists eff,
    Product.scrape_product Fixtures.dress_url (Ok Fixtures.challenge_page) 0%Z
      = (Raise (Exn "Exception" "Bot detection triggered"), eff) /\
    In (WriteFile "asos_bot_detection_" 0%Z (pp_source Fixtures.challenge_page)) eff /\
    navigations eff = [Fixtures.dress_url].
Proof.
  apply (proj1 (scrape_product_bot_challenge Fixtures.challenge_page
                  Fixtures.dress_url 0%Z (or_introl eq_refl))).
Defined.

(** ** C5: price parsing *)

(** C5, as stated, fails: the price text "£TBC" cannot be converted, and
    the record keeps "TBC", the text without its pound sign, rather than
    the price string itself. *)
Lemma price_unparsable_not_verbatim :
  PyNum.py_float (Product.clean_price "£TBC") = None /\
  Product.price_value "£TBC" = PStr "TBC" /\
  Product.price_value "£TBC" <> PStr "£TBC" /\
  (exists d eff,
     Product.scrape_product Fixtures.dress_url (Ok Fixtures.tbc_price_page) 0%Z
       = (Ok d, eff) /\ dget "price" d = Some (PStr "TBC")).
Proof.
  split; [reflexivity |]. split; [reflexivity |]. split; [discriminate |].
  eexists; eexists. split; [reflexivity | reflexivity].
Qed.

(** C5 (amended): the price text is stripped of surrounding whitespace,
    then of every pound sign and every comma (no other currency symbol is
    removed), and converted with [float()]: "£85.00" gives 85.0 and
    "£1,234.50" gives 1234.5, while "$85.00" is not a number and stays
    "$85.00".  When [float()] fails, the cleaned string is what the record
    keeps as its price, so a found price is never dropped. *)
Theorem price_parsing (t : string) :
  Product.price_value "£85.00" = PFloat (PyNum.Finite 85) /\
  Product.price_value "£1,234.50" = PFloat (PyNum.Finite (2469 # 2)) /\
  Product.price_value "$85.00" = PStr "$85.00" /\
  Product.clean_price t = Py.replace "," "" (Py.replace "£" "" (Py.strip t)) /\
  (PyNum.py_float (Product.clean_price t) = None ->
   Product.price_value t = PStr (Product.clean_price t)) /\
  (forall f, PyNum.py_float (Product.clean_price t) = Some f ->
   Product.price_value t = PFloat f) /\
  (forall url p now d eff,
     pp_price p = Ok t ->
     Product.scrape_product url (Ok p) now = (Ok d, eff) ->
     dget "price" d = Some (Product.price_value t)).
Proof.
  split; [reflexivity |]. split; [reflexivity |]. split; [reflexivity |].
  split; [reflexivity |].
  split; [unfold Product.price_value; intros H; rewrite H; reflexivity |].
  split; [unfold Product.price_value; intros f H; rewrite H; reflexivity |].
  intros url p now d eff Hp E.
  destruct (scrape_product_ok _ _ _ _ _ E) as (p' & logs & Hnav & _ & Hx & _).
  inversion Hnav; subst p'.
  destruct (extract_ok _ _ _ _ Hx) as (_ & _ & _ & _ & Hpr & _).
  now rewrite Hp in Hpr.
Qed.

(** C5 (amended) at the unparsable price "£TBC" on a page holding only
    that price. *)
Lemma price_parsing_witness :
  Product.price_value "£TBC" = PStr (Product.clean_price "£TBC") /\
  (exists d eff,
     Product.scrape_product Fixtures.dress_url (Ok Fixtures.tbc_price_page) 0%Z
       = (Ok d, eff) /\ dget "price" d = Some (Product.price_value "£TBC")).
Proof.
  destruct (price_parsing "£TBC") as (_ & _ & _ & _ & Hnone & _ & Hrec).
  split; [apply Hnone; reflexivity |].
  eexists; eexists. split; [reflexivity |].
  eapply (Hrec Fixtures.dress_url Fixtures.tbc_price_page 0%Z); reflexivity.
Defined.

(** ** C3: the selector cascade *)

Lemma selector_loop_step
    (find : string -> result (list (result (option string))))
    (s : string) (rest : list string) :
  Links.selector_loop find (s :: rest) []
  = match Links.strategy_output find s with
    | [] => Links.selector_loop find rest []
    | out => out
    end.
Proof.
  unfold Links.strategy_output. simpl.
  destruct (find s) as [[| x xs] | e]; try reflexivity.
  destruct (Links.hrefs_of (x :: xs)); reflexivity.
Qed.

Lemma selector_loop_skip
    (find : string -> result (list (result (option string))))
    (pre rest : list string) :
  (forall s', In s' pre -> Links.strategy_output find s' = []) ->
  Links.selector_loop find (pre ++ rest) [] = Links.selector_loop find rest [].
Proof.
  induction pre as [| s' pre IH]; intros Hpre; [reflexivity |].
  simpl app. rewrite selector_loop_step, (Hpre s' (or_introl eq_refl)).
  apply IH. intros s0 H. apply Hpre. now right.
Qed.

(** C3: the selector loop returns the output of the first selector whose
    output is non-empty, never a later one; a selector whose lookup raises
    contributes nothing and the loop goes on.  When every selector comes
    out empty the loop yields nothing and the static-markup fallback runs.
    The attempt then returns that first non-empty output, deduplicated. *)
Theorem selector_cascade_first_nonempty :
  (forall find pre s rest,
     (forall s', In s' pre -> Links.strategy_output find s' = []) ->
     Links.strategy_output find s <> [] ->
     Links.selector_loop find (pre ++ s :: rest) [] = Links.strategy_output find s) /\
  (forall find sels,
     (forall s', In s' sels -> Links.strategy_output find s' = []) ->
     Links.selector_loop find sels [] = []) /\
  (forall find e s, find s = Raise e -> Links.strategy_output find s = []) /\
  (forall url p now pre s rest,
     Links.link_selectors = (pre ++ s :: rest)%list ->
     Py.contains "asos.com" (Links.cp_current_url p) = true ->
     Links.cp_scroll p = Ok tt ->
     (forall s', In s' pre -> Links.strategy_output (Links.cp_find_elements p) s' = []) ->
     Links.strategy_output (Links.cp_find_elements p) s <> [] ->
     Links.attempt url (Ok p) now
       = (Ok (Links.dedup (Links.strategy_output (Links.cp_find_elements p) s)),
          [Navigate url])).
Proof.
  assert (Hfirst : forall find pre s rest,
     (forall s', In s' pre -> Links.strategy_output find s' = []) ->
     Links.strategy_output find s <> [] ->
     Links.selector_loop find (pre ++ s :: rest) [] = Links.strategy_output find s).
  { intros find pre s rest Hpre Hs.
    rewrite selector_loop_skip by exact Hpre.
    rewrite selector_loop_step.
    destruct (Links.strategy_output find s); [congruence | reflexivity]. }
  split; [exact Hfirst |].
  split.
  - intros find sels Hall.
    rewrite <- (app_nil_r sels), selector_loop_skip by exact Hall. reflexivity.
  - split.
    + intros find e s H. unfold Links.strategy_output. now rewrite H.
    + intros url p now pre s rest Hsel Hc Hscroll Hpre Hs.
      unfold Links.attempt. rewrite Hc, Hscroll. simpl negb. cbv iota.
      rewrite Hsel, (Hfirst _ _ _ _ Hpre Hs).
      destruct (Links.strategy_output (Links.cp_find_elements p) s); [congruence |].
      reflexivity.
Qed.

(** C3 at a page where the first selector's lookup raises and the second
    one finds a product link. *)
Lemma selector_cascade_first_nonempty_witness :
  Links.selector_loop
    (fun s => if String.eqb s (List.nth 0 Links.link_selectors "")
              then Raise (Exn "WebDriverException" "stale")
              else Ok [Ok (Some "https://www.asos.com/prd/1")])
    Links.link_selectors [] = ["https://www.asos.com/prd/1"].
Proof.
  change Links.link_selectors with
    (List.firstn 1 Links.link_selectors
     ++ List.nth 1 Links.link_selectors "" :: List.skipn 2 Links.link_selectors)%list
    at 2.
  rewrite (proj1 selector_cascade_first_nonempty).
  - reflexivity.
  - intros s' [<- | []]. reflexivity.
  - discriminate.
Defined.

(** ** The retry loop *)

(** The fuel of [retry_from] never cuts the loop short: with at least as
    much fuel as attempts left before [stop_after_attempt m] holds, more
    fuel changes nothing. *)
Lemma retry_fuel_irrelevant {A} (m : nat) (wait : nat -> Z)
    (op : nat -> result A * list effect) (fuel k n : nat) :
  (m <= n + fuel)%nat ->
  Retry.retry_from (Retry.stop_after_attempt m) wait op fuel n
  = Retry.retry_from (Retry.stop_after_attempt m) wait op (fuel + k) n.
Proof.
  revert n. induction fuel as [| fuel IH]; intros n Hm.
  - destruct k as [| k]; [reflexivity |].
    simpl. destruct (op n) as [[v | e] f]; [reflexivity |].
    unfold Retry.stop_after_attempt.
    replace (m <=? n)%nat with true by (symmetry; apply Nat.leb_le; lia).
    reflexivity.
  - simpl. destruct (op n) as [[v | e] f]; [reflexivity |].
    destruct (Retry.stop_after_attempt m n); [reflexivity |].
    rewrite (IH (S n)) by lia. reflexivity.
Qed.

(** The outcome of the loop (result, attempts, sleeps) depends only on the
    outcomes of the attempts, not on their effects. *)
Lemma retry_from_outcome {A} (stop : nat -> bool) (wait : nat -> Z)
    (op1 op2 : nat -> result A * list effect) (fuel n : nat) :
  (forall k, fst (op1 k) = fst (op2 k)) ->
  fst (Retry.retry_from stop wait op1 fuel n)
  = fst (Retry.retry_from stop wait op2 fuel n).
Proof.
  intros Hop. revert n. induction fuel as [| fuel IH]; intros n; simpl;
    specialize (Hop n) as Hn;
    destruct (op1 n) as [r1 f1], (op2 n) as [r2 f2]; simpl in Hn; subst r2;
    destruct r1 as [v | e]; try reflexivity;
    destruct (stop n); try reflexivity.
  specialize (IH (S n)).
  destruct (Retry.retry_from stop wait op1 fuel (S n)) as [[[r1 n1] w1] e1],
           (Retry.retry_from stop wait op2 fuel (S n)) as [[[r2 n2] w2] e2].
  simpl in IH. inversion IH. reflexivity.
Qed.

(** ** C6: an off-site redirect *)

(** C6 (as written) fails: a category page that redirects off the site on
    every load is attempted three times, with two sleeps of four seconds,
    before [RetryError] is raised. *)
Lemma redirect_retried_three_times :
  Retry.get_product_links Fixtures.category_url
    (fun _ => Ok Fixtures.redirected_page) (fun _ => 0%Z)
  = (Raise (RetryError (Exn "Exception" "Redirected to unexpected URL")), 3%nat,
     [4%Z; 4%Z],
     [Navigate Fixtures.category_url; Navigate Fixtures.category_url;
      Navigate Fixtures.category_url]).
Proof. reflexivity. Qed.

(** C6 (amended): when the URL after navigation does not contain
    "asos.com", the attempt raises "Redirected to unexpected URL"; the
    decorator retries this like any other exception, so a page that
    redirects on every load is navigated three times, with a four-second
    wait between attempts, and the call fails with [RetryError] wrapping
    the redirect exception. *)
Theorem redirect_is_retried :
  forall url navs clock,
    (forall n, exists p, navs n = Ok p /\
       Py.contains "asos.com" (Links.cp_current_url p) = false) ->
    Retry.get_product_links url navs clock
    = (Raise (RetryError (Exn "Exception" "Redirected to unexpected URL")), 3%nat,
       [4%Z; 4%Z], [Navigate url; Navigate url; Navigate url]).
Proof.
  intros url navs clock H.
  destruct (H 1%nat) as (p1 & E1 & C1), (H 2%nat) as (p2 & E2 & C2),
           (H 3%nat) as (p3 & E3 & C3).
  unfold Retry.get_product_links, Retry.decorated. simpl.
  unfold Links.attempt. rewrite E1, E2, E3, C1, C2, C3. reflexivity.
Qed.

Lemma redirect_is_retried_witness :
  Retry.get_product_links Fixtures.category_url
    (fun _ => Ok Fixtures.redirected_page) (fun n => Z.of_nat n)
  = (Raise (RetryError (Exn "Exception" "Redirected to unexpected URL")), 3%nat,
     [4%Z; 4%Z],
     [Navigate Fixtures.category_url; Navigate Fixtures.category_url;
      Navigate Fixtures.category_url]).
Proof.
  apply redirect_is_retried.
  intros n. exists Fixtures.redirected_page. split; reflexivity.
Defined.

(** ** C7: the retry policy *)

(** C7: the decorated call makes between one and three attempts, and
    sleeps [wait_exponential 1 4 10 i] after each failed attempt [i] but
    the last; an operation that fails on attempts one and two and succeeds
    on attempt three returns that success after exactly three attempts,
    with sleeps of four seconds twice; the delay after attempt [i] is
    [max 4 (min (2 ^ (i - 1)) 10)], non-decreasing in [i] and between the
    floor 4 and the ceiling 10. *)
Theorem retry_policy :
  (forall A (op : nat -> result A * list effect) r n ws eff,
     Retry.decorated op = (r, n, ws, eff) ->
     (1 <= n <= 3)%nat /\
     ws = map (Retry.wait_exponential 1 4 10) (seq 1 (n - 1))) /\
  (forall A (op : nat -> result A * list effect) v e1 e2 f1 f2 f3,
     op 1%nat = (Raise e1, f1) -> op 2%nat = (Raise e2, f2) ->
     op 3%nat = (Ok v, f3) ->
     Retry.decorated op = (Ok v, 3%nat, [4%Z; 4%Z], app f1 (app f2 f3))) /\
  (forall i, (1 <= i)%nat ->
     Retry.wait_exponential 1 4 10 i = Z.max 4 (Z.min (2 ^ (Z.of_nat i - 1)) 10)) /\
  (forall i j, (i <= j)%nat ->
     (4 <= Retry.wait_exponential 1 4 10 i /\
      Retry.wait_exponential 1 4 10 i <= Retry.wait_exponential 1 4 10 j /\
      Retry.wait_exponential 1 4 10 j <= 10)%Z).
Proof.
  split; [| split; [| split]].
  - intros A op r n ws eff H.
    unfold Retry.decorated in H. simpl in H.
    destruct (op 1%nat) as [[v | e] f]; simpl in H.
    { inversion H; subst. split; [lia | reflexivity]. }
    destruct (op 2%nat) as [[v2 | e2] f2]; simpl in H.
    { inversion H; subst. split; [lia | reflexivity]. }
    destruct (op 3%nat) as [[v3 | e3] f3]; simpl in H;
      inversion H; subst; split; (lia || reflexivity).
  - intros A op v e1 e2 f1 f2 f3 H1 H2 H3.
    unfold Retry.decorated. simpl. rewrite H1, H2, H3. reflexivity.
  - intros i _. unfold Retry.wait_exponential. lia.
  - intros i j Hij. unfold Retry.wait_exponential.
    assert (2 ^ (Z.of_nat i - 1) <= 2 ^ (Z.of_nat j - 1))%Z.
    { destruct (Z_lt_le_dec (Z.of_nat i - 1) 0).
      - rewrite (Z.pow_neg_r 2 (Z.of_nat i - 1)) by lia.
        apply Z.pow_nonneg. lia.
      - apply Z.pow_le_mono_r; lia. }
    lia.
Qed.

Lemma retry_policy_witness :
  Retry.decorated
    (fun n => if (n <? 3)%nat
              then (Raise (Exn "TimeoutException" "slow"), [Log "WARNING" "retry"])
              else (Ok tt, [Log "INFO" "done"]))
  = (Ok tt, 3%nat, [4%Z; 4%Z],
     [Log "WARNING" "retry"; Log "WARNING" "retry"; Log "INFO" "done"]) /\
  Retry.wait_exponential 1 4 10 5 = 10%Z.
Proof.
  split.
  - apply (proj1 (proj2 retry_policy) _ _ tt
             (Exn "TimeoutException" "slow") (Exn "TimeoutException" "slow")
             [Log "WARNING" "retry"] [Log "WARNING" "retry"] [Log "INFO" "done"]);
      reflexivity.
  - rewrite (proj1 (proj2 (proj2 retry_policy)) 5%nat) by lia. reflexivity.
Defined.

(** ** C9: collection over a static page *)

Lemma attempt_outcome_clock (url : string) (nav : result Links.CategoryPage)
    (t1 t2 : Z) :
  fst (Links.attempt url nav t1) = fst (Links.attempt url nav t2).
Proof.
  unfold Links.attempt.
  destruct nav as [p | e]; [| reflexivity].
  destruct (negb (Py.contains "asos.com" (Links.cp_current_url p))); [reflexivity |].
  destruct (Links.cp_scroll p); [| reflexivity].
  destruct (Links.selector_loop (Links.cp_find_elements p) Links.link_selectors []);
    [| reflexivity].
  destruct (Links.soup_links (Links.cp_anchor_hrefs p)); reflexivity.
Qed.

(** C9: collecting links from the same page document twice gives the same
    outcome: one attempt returns the same links (or raises the same
    exception) whatever the time it runs at, and the decorated call, fed
    the same navigation outcomes, returns the same links after the same
    attempts and sleeps; only the timestamp of a debug file may differ. *)
Theorem collect_deterministic :
  (forall url nav t1 t2,
     fst (Links.attempt url nav t1) = fst (Links.attempt url nav t2)) /\
  (forall url navs clock1 clock2,
     fst (Retry.get_product_links url navs clock1)
     = fst (Retry.get_product_links url navs clock2)).
Proof.
  split.
  - exact attempt_outcome_clock.
  - intros url navs clock1 clock2.
    unfold Retry.get_product_links, Retry.decorated.
    apply retry_from_outcome. intros k. apply attempt_outcome_clock.
Qed.

(** ** C1: deduplication of the collected links *)

(** C1 fails on the static-markup fallback, which returns its links
    without the deduplication of line 223: a page with a [<base href>] off
    the site whose two anchors both point at [/prd/12345] yields that
    product URL twice, after one attempt. *)
Theorem fallback_links_not_deduplicated :
  Retry.get_product_links Fixtures.category_url
    (fun _ => Ok Fixtures.base_tag_page) (fun _ => 0%Z)
  = (Ok ["https://www.asos.com/prd/12345"; "https://www.asos.com/prd/12345"],
     1%nat, [],
     [Navigate Fixtures.category_url;
      WriteFile "asos_debug_" 0 (Links.cp_source Fixtures.base_tag_page)]) /\
  Links.dedup ["https://www.asos.com/prd/12345"; "https://www.asos.com/prd/12345"]
  = ["https://www.asos.com/prd/12345"].
Proof. split; reflexivity. Qed.

(** ** C8: relative product links *)

(** C8 (as written) fails: a relative product href that does not start
    with [/prd/] is dropped rather than made absolute, so a page whose
    only product anchor is [/women/dress/prd/12345] yields no link. *)
Lemma relative_product_href_dropped :
  Links.soup_links ["/women/dress/prd/12345"] = [] /\
  fst (Links.attempt Fixtures.category_url
         (Ok (Fixtures.fallback_page ["/women/dress/prd/12345"])) 0)
  = Raise (Exn "TimeoutException" "Could not find any product elements on the page").
Proof. split; reflexivity. Qed.

(** C8 (amended): the static-markup fallback keeps an href containing
    "asos.com" and "/prd/" unchanged, turns an href starting with "/prd/"
    into "https://www.asos.com" followed by it (so "/prd/12345" gives
    "https://www.asos.com/prd/12345"), and drops every other href; the
    hrefs read from the live page are read in order, and each is kept
    unchanged when it contains "asos.com" and "/prd/", dropped otherwise. *)
Theorem relative_links_prefixed :
  (forall l1 l2, Links.soup_links (app l1 l2)
                 = app (Links.soup_links l1) (Links.soup_links l2)) /\
  (forall h, Py.contains "asos.com" h && Py.contains "/prd/" h = true ->
     Links.soup_links [h] = [h]) /\
  (forall h, Py.contains "asos.com" h && Py.contains "/prd/" h = false ->
     Py.prefixb "/prd/" h = true ->
     Links.soup_links [h] = ["https://www.asos.com" ++ h]) /\
  (forall h, Py.contains "asos.com" h && Py.contains "/prd/" h = false ->
     Py.prefixb "/prd/" h = false ->
     Links.soup_links [h] = []) /\
  Links.soup_links ["/prd/12345"] = ["https://www.asos.com/prd/12345"] /\
  (forall links s, In s (Links.hrefs_of links) -> In (Ok (Some s)) links) /\
  (forall l1 l2, Links.hrefs_of (app l1 l2)
                 = app (Links.hrefs_of l1) (Links.hrefs_of l2)) /\
  (forall h, Py.contains "asos.com" h && Py.contains "/prd/" h = true ->
     Links.hrefs_of [Ok (Some h)] = [h]) /\
  (forall h, Py.contains "asos.com" h && Py.contains "/prd/" h = false ->
     Links.hrefs_of [Ok (Some h)] = []).
Proof.
  split; [| split; [| split; [| split; [| split; [| split; [| split; [| split]]]]]]].
  - intros l1 l2. induction l1 as [| h r IH]; [reflexivity |].
    cbn [Links.soup_links app]. rewrite IH.
    destruct (Py.contains "asos.com" h && Py.contains "/prd/" h); [reflexivity |].
    destruct (Py.prefixb "/prd/" h); reflexivity.
  - intros h H. cbn [Links.soup_links]. now rewrite H.
  - intros h H1 H2. cbn [Links.soup_links]. now rewrite H1, H2.
  - intros h H1 H2. cbn [Links.soup_links]. now rewrite H1, H2.
  - reflexivity.
  - induction links as [| x r IH]; intros s H; [simpl in H; destruct H |].
    destruct x as [[s' |] | e]; cbn [Links.hrefs_of] in H.
    + destruct (Links.valid_href (Some s')).
      * destruct H as [<- | H]; [now left | right; auto].
      * right; auto.
    + right; auto.
    + right; auto.
  - intros l1 l2. induction l1 as [| x r IH]; [reflexivity |].
    cbn [Links.hrefs_of app]. rewrite IH.
    destruct x as [[s' |] | e]; [| reflexivity | reflexivity].
    destruct (Links.valid_href (Some s')); reflexivity.
  - intros h H. cbn [Links.hrefs_of Links.valid_href].
    destruct h as [| c h]; [discriminate |].
    cbn [Py.truthy String.eqb negb andb]. now rewrite H.
  - intros h H. cbn [Links.hrefs_of Links.valid_href].
    rewrite <- andb_assoc, H, andb_false_r. reflexivity.
Qed.

Lemma relative_links_prefixed_witness :
  Links.soup_links ["https://www.asos.com/prd/1"; "/prd/12345"; "/about"]
  = ["https://www.asos.com/prd/1"; "https://www.asos.com/prd/12345"] /\
  Links.hrefs_of [Ok (Some "https://www.asos.com/prd/1"); Ok None;
                  Ok (Some "/prd/2")]
  = ["https://www.asos.com/prd/1"].
Proof.
  destruct relative_links_prefixed
    as (Happ & Hkeep & Hpre & Hdrop & _ & _ & Happ' & Hlive & Hdead).
  split.
  - change ["https://www.asos.com/prd/1"; "/prd/12345"; "/about"]
      with (app ["https://www.asos.com/prd/1"] (app ["/prd/12345"] ["/about"])).
    rewrite !Happ, Hkeep, (Hpre "/prd/12345"), (Hdrop "/about")
      by reflexivity.
    reflexivity.
  - change [Ok (Some "https://www.asos.com/prd/1"); Ok None; Ok (Some "/prd/2")]
      with (app [Ok (Some "https://www.asos.com/prd/1")]
                (app [@Ok (option string) None] [Ok (Some "/prd/2")])).
    rewrite !Happ', Hlive, (Hdead "/prd/2") by reflexivity.
    reflexivity.
Defined.

(* ================================================================== *)
(** * Further properties of the code *)

(** ** String lemmas *)

Lemma string_app_assoc (a b c : string) : (a ++ b) ++ c = a ++ (b ++ c).
Proof. induction a; simpl; congruence. Qed.

Lemma string_app_nil_r (a : string) : a ++ "" = a.
Proof. induction a; simpl; congruence. Qed.

Lemma list_ascii_of_string_app (a b : string) :
  list_ascii_of_string (a ++ b) = (list_ascii_of_string a ++ list_ascii_of_string b)%list.
Proof. induction a; simpl; congruence. Qed.

Lemma string_of_list_ascii_app (a b : list ascii) :
  string_of_list_ascii (a ++ b)%list = string_of_list_ascii a ++ string_of_list_ascii b.
Proof. induction a; simpl; congruence. Qed.

Lemma rev_string_app (a b : string) :
  Py.rev_string (a ++ b) = Py.rev_string b ++ Py.rev_string a.
Proof.
  unfold Py.rev_string. rewrite list_ascii_of_string_app, rev_app_distr.
  apply string_of_list_ascii_app.
Qed.

Lemma rev_string_involutive (s : string) : Py.rev_string (Py.rev_string s) = s.
Proof.
  unfold Py.rev_string. rewrite list_ascii_of_string_of_list_ascii, rev_involutive.
  apply string_of_list_ascii_of_string.
Qed.

Lemma rev_string_char (c : ascii) (s : string) :
  Py.rev_string (String c s) = Py.rev_string s ++ String c "".
Proof.
  change (String c s) with (String c "" ++ s). rewrite rev_string_app. reflexivity.
Qed.

Lemma lstrip_by_app (p : ascii -> bool) (a b : string) :
  Py.lstrip_by p (a ++ b)
  = match Py.lstrip_by p a with "" => Py.lstrip_by p b | s => s ++ b end.
Proof.
  induction a as [| c a IH]; [reflexivity |].
  simpl. destruct (p c); [exact IH | reflexivity].
Qed.

Lemma prefixb_app (p s : string) : Py.prefixb p (p ++ s) = true.
Proof.
  induction p as [| c p IH]; simpl; [destruct s; reflexivity |].
  now rewrite Ascii.eqb_refl, IH.
Qed.

Lemma prefixb_app_l (n a b : string) :
  Py.prefixb n a = true -> Py.prefixb n (a ++ b) = true.
Proof.
  revert a. induction n as [| c n IH]; intros a H; [destruct (a ++ b); reflexivity |].
  destruct a as [| d a]; [discriminate |].
  simpl in *. apply andb_prop in H as [H1 H2]. now rewrite H1, IH.
Qed.

Lemma prefixb_inv (p s : string) :
  Py.prefixb p s = true -> exists r, s = p ++ r.
Proof.
  revert s. induction p as [| c p IH]; intros s H; [now exists s |].
  destruct s as [| d s]; [discriminate |].
  simpl in H. apply andb_prop in H as [H1 H2].
  apply Ascii.eqb_eq in H1. subst d.
  destruct (IH s H2) as [r ->]. now exists r.
Qed.

Lemma contains_prefixb (n s : string) :
  Py.prefixb n s = true -> Py.contains n s = true.
Proof. intros H. destruct s; simpl; now rewrite H. Qed.

Lemma contains_app_r (n a b : string) :
  Py.contains n b = true -> Py.contains n (a ++ b) = true.
Proof.
  intros H. induction a as [| c a IH]; [exact H |].
  simpl. rewrite IH. apply orb_true_r.
Qed.

Lemma contains_app_l (n a b : string) :
  Py.contains n a = true -> Py.contains n (a ++ b) = true.
Proof.
  induction a as [| c a IH]; intros H.
  - destruct n; [destruct b; reflexivity | discriminate].
  - simpl in *. apply orb_prop in H as [H | H].
    + pose proof (prefixb_app_l n (String c a) b H) as H'. simpl in H'.
      now rewrite H'.
    + rewrite (IH H). apply orb_true_r.
Qed.


Lemma substring_0_all (s : string) (m : nat) :
  (String.length s <= m)%nat -> substring 0 m s = s.
Proof.
  revert m. induction s as [| c s IH]; intros m H; destruct m; simpl in *;
    try reflexivity; try lia.
  rewrite IH by lia. reflexivity.
Qed.

Lemma split_fuel_char (c : ascii) (fuel : nat) (s cur : string) :
  (String.length s <= fuel)%nat ->
  Py.split_fuel fuel (String c "") s cur = Py.split_char c s cur.
Proof.
  revert s cur. induction fuel as [| fuel IH]; intros s cur H.
  - destruct s; simpl in *; [now rewrite string_app_nil_r | lia].
  - destruct s as [| d s]; [reflexivity |].
    simpl in H |- *. rewrite andb_true_r.
    destruct (Ascii.eqb c d).
    + rewrite substring_0_all by lia. rewrite IH by lia. reflexivity.
    + apply IH. lia.
Qed.

Lemma split_char_eq (c : ascii) (s : string) :
  Py.split (String c "") s = Py.split_char c s "".
Proof. apply split_fuel_char. lia. Qed.

Lemma mem_char_app (c : ascii) (a b : string) :
  Py.mem_char c (a ++ b) = Py.mem_char c a || Py.mem_char c b.
Proof. induction a as [| d a IH]; simpl; [reflexivity | now rewrite IH, orb_assoc]. Qed.

Lemma split_char_nosep (c : ascii) (x y cur : string) :
  Py.mem_char c x = false ->
  Py.split_char c (x ++ y) cur = Py.split_char c y (cur ++ x).
Proof.
  revert cur. induction x as [| d x IH]; intros cur H.
  - now rewrite string_app_nil_r.
  - simpl in H |- *. apply orb_false_elim in H as [H1 H2].
    rewrite H1, IH by exact H2. now rewrite string_app_assoc.
Qed.

Lemma split_char_app (c : ascii) (x y cur : string) :
  Py.split_char c (x ++ String c y) cur = (Py.split_char c x cur ++ Py.split_char c y "")%list.
Proof.
  revert cur. induction x as [| d x IH]; intros cur; simpl.
  - now rewrite Ascii.eqb_refl.
  - destruct (Ascii.eqb c d); [now rewrite IH | apply IH].
Qed.

Lemma split_char_single (c : ascii) (x cur : string) :
  Py.mem_char c x = false -> Py.split_char c x cur = [cur ++ x].
Proof.
  intros H. rewrite <- (string_app_nil_r x) at 1.
  rewrite split_char_nosep by exact H. reflexivity.
Qed.

Lemma split_char_head (c : ascii) (s cur : string) :
  exists t rest, Py.split_char c s cur = (cur ++ t) :: rest.
Proof.
  revert cur. induction s as [| d s IH]; intros cur; simpl.
  - exists "", []. now rewrite string_app_nil_r.
  - destruct (Ascii.eqb c d).
    + exists "", (Py.split_char c s ""). now rewrite string_app_nil_r.
    + destruct (IH (cur ++ String d "")) as (t & rest & E).
      exists (String d t), rest. rewrite E, string_app_assoc. reflexivity.
Qed.

Lemma rstrip_keep (chars X0 y : string) (m : ascii) :
  Py.mem_char m chars = false ->
  Main.rstrip_chars chars (X0 ++ String m y) = X0 ++ String m (Main.rstrip_chars chars y).
Proof.
  intros Hm. unfold Main.rstrip_chars.
  rewrite rev_string_app, rev_string_char, string_app_assoc, lstrip_by_app.
  change (String m "" ++ Py.rev_string X0) with (String m (Py.rev_string X0)).
  assert (Hs : Py.lstrip_by (fun c => Py.mem_char c chars) (String m (Py.rev_string X0))
               = String m (Py.rev_string X0)) by (simpl; now rewrite Hm).
  destruct (Py.lstrip_by (fun c => Py.mem_char c chars) (Py.rev_string y)) as [| d w] eqn:E.
  - rewrite Hs, rev_string_char, rev_string_involutive. reflexivity.
  - rewrite rev_string_app, rev_string_char, rev_string_involutive, string_app_assoc.
    reflexivity.
Qed.

Lemma neg_index_two {A} (l : list A) (x y : A) :
  Main.neg_index (l ++ [x; y])%list 2 = Some x.
Proof.
  unfold Main.neg_index. rewrite length_app. simpl length.
  destruct (Nat.leb_spec 2 (length l + 2)); [| lia].
  replace (length l + 2 - 2)%nat with (length l) by lia.
  rewrite nth_error_app2 by lia. now rewrite Nat.sub_diag.
Qed.

(** X1: [extract_category_name] on a URL of the form
    [pre/seg/cat/?q], where [pre] and [seg] hold no ["?"] and [seg] no
    ["/"], returns [seg]: the segment before ["/cat"]. *)
Theorem category_name_canonical (pre seg q : string) :
  Py.mem_char "?" pre = false -> Py.mem_char "?" seg = false ->
  Py.mem_char "/" seg = false ->
  Main.extract_category_name (pre ++ "/" ++ seg ++ "/cat/?" ++ q) = seg.
Proof.
  intros Hpre Hseg Hseg'.
  unfold Main.extract_category_name, Main.category_of.
  rewrite !split_char_eq.
  replace (pre ++ "/" ++ seg ++ "/cat/?" ++ q)
    with ((pre ++ "/" ++ seg ++ "/cat/") ++ String "?" q)
    by (rewrite !string_app_assoc; reflexivity).
  rewrite split_char_app, split_char_single.
  2: { rewrite !mem_char_app, Hpre, Hseg. reflexivity. }
  simpl (Py.index _ 0). cbv beta iota. rewrite split_char_eq.
  replace (pre ++ String "/" (seg ++ "/cat/"))
    with ((pre ++ "/" ++ seg ++ "/ca") ++ String "t" "/")
    by (rewrite !string_app_assoc; reflexivity).
  rewrite rstrip_keep by reflexivity.
  replace ((pre ++ "/" ++ seg ++ "/ca") ++ String "t" (Main.rstrip_chars "/" "/"))
    with (pre ++ String "/" (seg ++ String "/" "cat"))
    by (rewrite !string_app_assoc; reflexivity).
  rewrite !split_char_app, (split_char_single "/" seg) by exact Hseg'.
  simpl (Py.split_char "/" "cat" "").
  change (app [String.append "" seg] ["cat"]) with [seg; "cat"].
  rewrite neg_index_two. reflexivity.
Qed.

Lemma neg_index_some {A} (l : list A) :
  (2 <= length l)%nat -> exists x, Main.neg_index l 2 = Some x.
Proof.
  intros H. unfold Main.neg_index.
  destruct (Nat.leb_spec 2 (length l)); [| lia].
  destruct (nth_error l (length l - 2)) eqn:E; [eauto |].
  apply nth_error_None in E. lia.
Qed.

(** X2: on a URL that [validate_asos_url] accepts, the [try] body of
    [extract_category_name] raises nothing: it returns a category, so the
    default ["unknown_category"] is never used for such a URL. *)
Theorem validated_category_found (url : string) :
  Main.validate_asos_url url = true ->
  exists category, Main.category_of url = Ok category.
Proof.
  unfold Main.validate_asos_url. intros H.
  apply andb_prop in H as [H _].
  destruct (prefixb_inv _ _ H) as [r ->].
  unfold Main.category_of. rewrite !split_char_eq.
  simpl (Py.split_char "?" _ _).
  destruct (split_char_head "?" r "https://www.asos.com/") as (t & rest & E).
  rewrite E. cbn [Py.index nth_error]. rewrite split_char_eq.
  change ("https://www.asos.com/" ++ t)
    with ("https://www.asos.co" ++ String "m" (String "/" t)).
  rewrite rstrip_keep by reflexivity.
  simpl (Py.split_char "/" _ _).
  destruct (split_char_head "/" (Main.rstrip_chars "/" (String "/" t)) "www.asos.com")
    as (t' & rest' & E').
  rewrite E'.
  destruct (neg_index_some ("https:" :: "" :: ("www.asos.com" ++ t') :: rest'))
    as [c Hc]; [simpl; lia |].
  rewrite Hc. eauto.
Qed.

(** ** [str] and [int] on natural numbers *)

Lemma digits_fold (l : list ascii) (a : Z) :
  fold_left (fun acc c => acc * 10 + PyNum.digit_value c)%Z l a
  = (a * 10 ^ Z.of_nat (length l) + PyNum.digits_value l)%Z.
Proof.
  unfold PyNum.digits_value. revert a.
  induction l as [| c l IH]; intros a; cbn [fold_left length].
  - lia.
  - rewrite (IH (a * 10 + PyNum.digit_value c)%Z),
            (IH (0 * 10 + PyNum.digit_value c)%Z).
    rewrite Nat2Z.inj_succ, Z.pow_succ_r by lia. ring.
Qed.

Lemma digits_value_cons (c : ascii) (l : list ascii) :
  PyNum.digits_value (c :: l)
  = (PyNum.digit_value c * 10 ^ Z.of_nat (length l) + PyNum.digits_value l)%Z.
Proof.
  unfold PyNum.digits_value at 1. cbn [fold_left length]. rewrite digits_fold. ring.
Qed.

Lemma digit_char (k : nat) :
  (k < 10)%nat ->
  PyNum.is_digit (ascii_of_nat (48 + k)) = true /\
  PyNum.digit_value (ascii_of_nat (48 + k)) = Z.of_nat k.
Proof.
  intros Hk. unfold PyNum.is_digit, PyNum.digit_value.
  rewrite nat_ascii_embedding by lia. split.
  - apply andb_true_intro; split; apply Nat.leb_le; lia.
  - f_equal. lia.
Qed.


Lemma length_list_ascii (s : string) :
  length (list_ascii_of_string s) = String.length s.
Proof. induction s as [| c s IH]; cbn [list_ascii_of_string length String.length]; congruence. Qed.

Lemma string_of_nat_aux_digits (fuel n : nat) (acc : string) :
  (n < fuel)%nat ->
  forallb PyNum.is_digit (list_ascii_of_string (string_of_nat_aux fuel n acc))
  = forallb PyNum.is_digit (list_ascii_of_string acc) /\
  (exists c r, string_of_nat_aux fuel n acc = String c r) /\
  PyNum.digits_value (list_ascii_of_string (string_of_nat_aux fuel n acc))
  = (Z.of_nat n * 10 ^ Z.of_nat (String.length acc)
     + PyNum.digits_value (list_ascii_of_string acc))%Z.
Proof.
  revert n acc. induction fuel as [| fuel IH]; intros n acc Hn; [lia |].
  cbn [string_of_nat_aux].
  destruct (digit_char (n mod 10)) as [Hd Hv]; [apply Nat.mod_upper_bound; lia |].
  set (d := ascii_of_nat (48 + n mod 10)) in *.
  destruct (Nat.ltb_spec n 10) as [Hlt | Hge].
  - cbn [list_ascii_of_string forallb]. rewrite Hd. split; [reflexivity |].
    split; [eauto |].
    rewrite digits_value_cons, Hv, length_list_ascii, (Nat.mod_small n 10 Hlt).
    reflexivity.
  - destruct (IH (n / 10)%nat (String d acc)) as (H1 & H2 & H3).
    { assert (n / 10 < n)%nat by (apply Nat.div_lt; lia). lia. }
    rewrite H1, H3. cbn [list_ascii_of_string forallb String.length].
    rewrite Hd. split; [reflexivity |]. split; [exact H2 |].
    rewrite digits_value_cons, Hv, length_list_ascii.
    rewrite Nat2Z.inj_succ, Z.pow_succ_r by lia.
    pose proof (Nat.div_mod_eq n 10) as Hdm.
    assert (Z.of_nat n = 10 * Z.of_nat (n / 10) + Z.of_nat (n mod 10))%Z as Hz by lia.
    rewrite Hz. ring.
Qed.
Lemma is_digit_not_space (c : ascii) :
  PyNum.is_digit c = true -> Py.is_space c = false.
Proof.
  unfold PyNum.is_digit, Py.is_space. intros H.
  apply andb_prop in H as [H1 H2]. apply Nat.leb_le in H1, H2.
  destruct (Nat.eqb_spec (nat_of_ascii c) 32); [lia |].
  destruct (Nat.leb_spec 9 (nat_of_ascii c)), (Nat.leb_spec (nat_of_ascii c) 13),
    (Nat.leb_spec 28 (nat_of_ascii c)), (Nat.leb_spec (nat_of_ascii c) 31);
    simpl; try reflexivity; lia.
Qed.

Lemma forallb_rev {A} (f : A -> bool) (l : list A) :
  forallb f (rev l) = forallb f l.
Proof.
  induction l as [| x l IH]; simpl; [reflexivity |].
  rewrite forallb_app, IH. simpl. now rewrite andb_true_r, andb_comm.
Qed.

(** A string that starts with a character [p] rejects is left as it is
    by [lstrip_by p]. *)
Lemma lstrip_by_stop (p : ascii -> bool) (s : string) :
  s <> "" -> forallb (fun c => negb (p c)) (list_ascii_of_string s) = true ->
  Py.lstrip_by p s = s.
Proof.
  destruct s as [| c s]; intros Hne H; [congruence |].
  simpl in *. apply andb_prop in H as [H _].
  destruct (p c); [discriminate | reflexivity].
Qed.

Lemma rev_string_nonempty (s : string) : s <> "" -> Py.rev_string s <> "".
Proof.
  intros H E. apply H.
  rewrite <- (rev_string_involutive s), E. reflexivity.
Qed.

Lemma list_rev_string (s : string) :
  list_ascii_of_string (Py.rev_string s) = rev (list_ascii_of_string s).
Proof. unfold Py.rev_string. apply list_ascii_of_string_of_list_ascii. Qed.

(** [strip_by p] leaves a non-empty string of characters [p] rejects as
    it is. *)
Lemma strip_by_keep (p : ascii -> bool) (s : string) :
  s <> "" -> forallb (fun c => negb (p c)) (list_ascii_of_string s) = true ->
  Py.strip_by p s = s.
Proof.
  intros Hne H. unfold Py.strip_by.
  rewrite (lstrip_by_stop p s Hne H).
  rewrite lstrip_by_stop.
  - apply rev_string_involutive.
  - now apply rev_string_nonempty.
  - now rewrite list_rev_string, forallb_rev.
Qed.

Lemma digits_tail_all (l : list ascii) :
  forallb PyNum.is_digit l = true -> PyNum.digits_tail l = (l, []).
Proof.
  induction l as [| c l IH]; intros H; [reflexivity |].
  simpl in H. apply andb_prop in H as [H1 H2].
  simpl. rewrite H1, (IH H2). reflexivity.
Qed.

(** [int(str(n)) == n] *)
Lemma py_int_string_of_nat (n : nat) :
  PyNum.py_int (string_of_nat n) = Some (Z.of_nat n).
Proof.
  unfold string_of_nat.
  destruct (string_of_nat_aux_digits (S n) n "") as (Hd & (c & r & E) & Hv); [lia |].
  change (forallb PyNum.is_digit (list_ascii_of_string "")) with true in Hd.
  change (PyNum.digits_value (list_ascii_of_string "")) with 0%Z in Hv.
  change (String.length "") with 0%nat in Hv.
  rewrite Z.pow_0_r, Z.mul_1_r, Z.add_0_r in Hv.
  rewrite E in Hd, Hv |- *. unfold PyNum.py_int, Py.strip.
  rewrite strip_by_keep; [| discriminate |].
  2: { rewrite forallb_forall in Hd |- *. intros x Hx.
       now rewrite is_digit_not_space by (apply Hd; exact Hx). }
  cbn [list_ascii_of_string forallb] in Hd, Hv |- *. apply andb_prop in Hd as [Hc Hr].
  assert (Hm : Ascii.eqb c "-" = false /\ Ascii.eqb c "+" = false).
  { unfold PyNum.is_digit in Hc. apply andb_prop in Hc as [Hc1 Hc2].
    apply Nat.leb_le in Hc1, Hc2.
    split; destruct (Ascii.eqb_spec c "-") as [-> | ]; try reflexivity;
      try (cbv in Hc1; lia); destruct (Ascii.eqb_spec c "+") as [-> | ];
      try reflexivity; cbv in Hc1; lia. }
  destruct Hm as [Hm1 Hm2]. cbn [PyNum.sign_of]. rewrite Hm1, Hm2.
  cbn [PyNum.digitpart]. rewrite Hc, (digits_tail_all _ Hr).
  cbv beta iota. rewrite Hv. f_equal. ring.
Qed.

Lemma string_of_nat_inj (a b : nat) : string_of_nat a = string_of_nat b -> a = b.
Proof.
  intros E. pose proof (py_int_string_of_nat a) as Ha.
  rewrite E, py_int_string_of_nat in Ha. inversion Ha. lia.
Qed.

(** ** Deduplication and the links collected *)

Lemma existsb_eqb_spec (x : string) (l : list string) :
  reflect (In x l) (existsb (String.eqb x) l).
Proof.
  apply iff_reflect. rewrite existsb_exists. split.
  - intros H. exists x. split; [exact H | apply String.eqb_refl].
  - intros (y & Hy & E). apply String.eqb_eq in E. now subst y.
Qed.

Lemma dedup_seen_in (seen l : list string) (x : string) :
  In x (Links.dedup_seen seen l) <-> In x l /\ ~ In x seen.
Proof.
  revert seen. induction l as [| y r IH]; intros seen; cbn [Links.dedup_seen].
  - cbn [In]. tauto.
  - destruct (existsb_eqb_spec y seen) as [Hy | Hy].
    + rewrite IH. cbn [In]. split; [tauto |].
      intros [[<- | H] Hn]; [contradiction | tauto].
    + cbn [In]. rewrite IH. cbn [In].
      destruct (string_dec y x) as [<- | Hne]; [tauto |].
      split; [intros [E | H]; [congruence | tauto] | tauto].
Qed.

Lemma dedup_seen_nodup (seen l : list string) : NoDup (Links.dedup_seen seen l).
Proof.
  revert seen. induction l as [| y r IH]; intros seen; cbn [Links.dedup_seen].
  - constructor.
  - destruct (existsb_eqb_spec y seen); [apply IH |].
    constructor; [| apply IH].
    rewrite dedup_seen_in. cbn [In]. tauto.
Qed.

Lemma dedup_seen_id (seen l : list string) :
  NoDup l -> (forall x, In x l -> ~ In x seen) -> Links.dedup_seen seen l = l.
Proof.
  revert seen. induction l as [| y r IH]; intros seen Hnd Hdis; [reflexivity |].
  cbn [Links.dedup_seen]. inversion Hnd as [| ? ? Hy Hr]; subst.
  destruct (existsb_eqb_spec y seen) as [Hs | Hs].
  - exfalso. exact (Hdis y (or_introl eq_refl) Hs).
  - f_equal. apply IH; [exact Hr |].
    intros x Hx [<- | H]; [contradiction | exact (Hdis x (or_intror Hx) H)].
Qed.

Lemma dedup_seen_snoc (seen l : list string) (x : string) :
  Links.dedup_seen seen (l ++ [x])%list
  = (Links.dedup_seen seen l
     ++ (if existsb (String.eqb x) (l ++ seen) then [] else [x]))%list.
Proof.
  revert seen. induction l as [| y r IH]; intros seen; cbn [Links.dedup_seen app].
  - destruct (existsb (String.eqb x) seen); reflexivity.
  - rewrite !IH.
    destruct (existsb_eqb_spec y seen) as [Hy | Hy];
      [| cbn [app]; f_equal];
      destruct (existsb_eqb_spec x (r ++ seen)) as [H1 | H1];
      destruct (existsb_eqb_spec x (r ++ y :: seen)) as [H2 | H2];
      destruct (existsb_eqb_spec x (y :: r ++ seen)) as [H3 | H3];
      try reflexivity; exfalso;
      rewrite ?in_app_iff in *; cbn [In] in *; rewrite ?in_app_iff in *;
      destruct (string_dec y x); subst; tauto.
Qed.


Lemma hrefs_of_valid (links : list (result (option string))) :
  Forall Links.product_link (Links.hrefs_of links).
Proof.
  induction links as [| x r IH]; [constructor |].
  destruct x as [[s |] | e]; cbn [Links.hrefs_of]; [| exact IH | exact IH].
  unfold Links.valid_href.
  destruct (Py.truthy s) eqn:E1, (Py.contains "asos.com" s) eqn:E2,
    (Py.contains "/prd/" s) eqn:E3; cbn [andb]; try exact IH.
  constructor; [split; assumption | exact IH].
Qed.

Lemma selector_loop_valid find sels acc :
  Forall Links.product_link acc -> Forall Links.product_link (Links.selector_loop find sels acc).
Proof.
  revert acc. induction sels as [| s sels IH]; intros acc H; [exact H |].
  cbn [Links.selector_loop].
  destruct (find s) as [[| l ls] | e]; [apply IH, H | | apply IH, H].
  assert (Hacc : Forall Links.product_link (acc ++ Links.hrefs_of (l :: ls))%list).
  { apply Forall_app; split; [exact H | apply hrefs_of_valid]. }
  destruct (acc ++ Links.hrefs_of (l :: ls))%list; [apply IH |]; exact Hacc.
Qed.

Lemma soup_links_valid (hrefs : list string) :
  Forall Links.product_link (Links.soup_links hrefs).
Proof.
  induction hrefs as [| h r IH]; [constructor |].
  cbn [Links.soup_links].
  destruct (Py.contains "asos.com" h) eqn:E1, (Py.contains "/prd/" h) eqn:E2;
    cbn [andb];
    try (constructor; [split; assumption | exact IH]);
    (destruct (Py.prefixb "/prd/" h) eqn:E3; [| exact IH]);
    (constructor; [| exact IH]); split;
    [ apply contains_app_l; reflexivity
    | apply contains_app_r, contains_prefixb, E3
    | apply contains_app_l; reflexivity
    | apply contains_app_r, contains_prefixb, E3
    | apply contains_app_l; reflexivity
    | apply contains_app_r, contains_prefixb, E3 ].
Qed.

(** What one attempt returns when it succeeds: a non-empty list of valid
    links, duplicate-free when read from the live page. *)
Lemma attempt_ok (url : string) (nav : result Links.CategoryPage) (now : Z)
    (links : list string) :
  fst (Links.attempt url nav now) = Ok links ->
  links <> [] /\ Forall Links.product_link links.
Proof.
  unfold Links.attempt.
  destruct nav as [p | e]; [| discriminate].
  destruct (negb (Py.contains "asos.com" (Links.cp_current_url p))); [discriminate |].
  destruct (Links.cp_scroll p); [| discriminate].
  pose proof (selector_loop_valid (Links.cp_find_elements p) Links.link_selectors []
                (Forall_nil _)) as Hv.
  destruct (Links.selector_loop (Links.cp_find_elements p) Links.link_selectors [])
    as [| x r] eqn:Ep.
  - pose proof (soup_links_valid (Links.cp_anchor_hrefs p)) as Hs.
    destruct (Links.soup_links (Links.cp_anchor_hrefs p)) as [| y q];
      cbn [fst]; intros H; inversion H; subst. split; [discriminate | exact Hs].
  - cbn [fst]. intros H; inversion H; subst. split.
    + unfold Links.dedup. cbn [Links.dedup_seen existsb]. discriminate.
    + apply Forall_forall. intros z Hz.
      unfold Links.dedup in Hz. apply dedup_seen_in in Hz as [Hz _].
      rewrite Forall_forall in Hv. exact (Hv z Hz).
Qed.

Lemma attempt_navigations (url : string) (nav : result Links.CategoryPage) (now : Z) :
  navigations (snd (Links.attempt url nav now)) = [url].
Proof.
  unfold Links.attempt.
  destruct nav as [p | e]; [| reflexivity].
  destruct (negb (Py.contains "asos.com" (Links.cp_current_url p))); [reflexivity |].
  destruct (Links.cp_scroll p); [| reflexivity].
  destruct (Links.selector_loop (Links.cp_find_elements p) Links.link_selectors []);
    [| reflexivity].
  destruct (Links.soup_links (Links.cp_anchor_hrefs p)); reflexivity.
Qed.

(** The decorated call, case by case: the attempts before the last all
    raised; the last one's success is returned, or it was the third and
    its exception is wrapped in [RetryError]; the effects are those of the
    attempts, in order. *)
Lemma decorated_cases {A} (op : nat -> result A * list effect) r n ws eff :
  Retry.decorated op = (r, n, ws, eff) ->
  (forall k, (1 <= k < n)%nat -> exists e, fst (op k) = Raise e) /\
  (match r with
   | Ok v => fst (op n) = Ok v
   | Raise e' => n = 3%nat /\ exists e, e' = RetryError e /\ fst (op 3%nat) = Raise e
   end) /\
  eff = flat_map (fun k => snd (op k)) (seq 1 n).
Proof.
  unfold Retry.decorated. cbn [Retry.retry_from].
  destruct (op 1%nat) as [[v1 | e1] f1] eqn:E1; cbn [Retry.stop_after_attempt Nat.leb].
  { intros H; inversion H; subst. split; [intros k Hk; lia |].
    rewrite E1. split; [reflexivity |].
    cbn [seq flat_map]. rewrite E1. cbn [snd]. now rewrite app_nil_r. }
  destruct (op 2%nat) as [[v2 | e2] f2] eqn:E2; cbn [Nat.leb].
  { intros H; inversion H; subst. split.
    - intros k Hk. assert (k = 1%nat) by lia. subst. rewrite E1. cbn [fst]. eauto.
    - rewrite E2. split; [reflexivity |]. cbn [seq flat_map]. rewrite E1, E2.
      cbn [snd]. now rewrite app_nil_r. }
  destruct (op 3%nat) as [[v3 | e3] f3] eqn:E3; cbn [Nat.leb];
    intros H; inversion H; subst; split.
  1, 3: intros k Hk; (assert (k = 1%nat \/ k = 2%nat) as [-> | ->] by lia);
        [rewrite E1 | rewrite E2]; cbn [fst]; eauto.
  - rewrite ?E3. split; [reflexivity |]. cbn [seq flat_map]. rewrite E1, E2, E3.
    cbn [snd]. now rewrite app_nil_r.
  - split; [split; [reflexivity | exists e3; split; reflexivity] |].
    cbn [seq flat_map]. rewrite E1, E2, E3.
    cbn [snd]. now rewrite app_nil_r.
Qed.

(** ** The product loop of [main.py] and the rows of [process_data] *)


Ltac dget_other Hk :=
  repeat (rewrite dget_dset_other
           by (let E := fresh in intro E; subst; vm_compute in Hk; discriminate Hk)).

Lemma extract_other_keys (p : ProductPage) (u : string) (d : dict)
    (logs : list effect) (k : string) :
  existsb (String.eqb k) Product.extract_keys = false ->
  Product.extract p u = (Ok d, logs) -> dget k d = None.
Proof.
  intros Hk. unfold Product.extract. intros E.
  destruct (Product.price_step p []) as [d0 logs0] eqn:Hp.
  destruct (Product.ratings_of p) as [r | e]; [| discriminate].
  match type of E with
  | context [Product.live_reviews p ?d7] =>
      destruct (Product.live_reviews p d7) as [[d8 revs] logs1] eqn:Hl
  end.
  match type of E with
  | context [Product.related p ?d9] =>
      destruct (Product.related p d9) as [d10 logs2] eqn:Hr
  end.
  inversion E; subst d; clear E.
  assert (Hd0 : dget k d0 = None).
  { unfold Product.price_step in Hp.
    destruct (pp_price p); inversion Hp; subst; [| reflexivity].
    cbn [dget]. destruct (String.eqb_spec k "price") as [-> | _];
      [vm_compute in Hk; discriminate Hk | reflexivity]. }
  destruct (pp_description p); dget_other Hk;
  (rewrite (related_keeps _ _ _ _ _ Hr)
     by (let E := fresh in intro E; subst; vm_compute in Hk; discriminate Hk));
  dget_other Hk;
  (rewrite (live_reviews_keeps _ _ _ _ _ _ Hl)
     by (let E := fresh in intro E; subst; vm_compute in Hk; discriminate Hk));
  dget_other Hk;
  destruct (pp_brand_link p); destruct (pp_h1 p); dget_other Hk; exact Hd0.
Qed.

(** The record [scrape_product] returns, when it returns one, comes from
    [extract]. *)
Lemma scrape_product_fst_ok (url : string) (nav : result ProductPage) (now : Z)
    (d : dict) :
  fst (Product.scrape_product url nav now) = Ok d ->
  exists p logs, nav = Ok p /\ Product.extract p url = (Ok d, logs).
Proof.
  intros H.
  destruct (Product.scrape_product url nav now) as [r eff] eqn:E.
  cbn [fst] in H. subst r.
  destruct (scrape_product_ok _ _ _ _ _ E) as (p & logs & Hn & _ & Hx & _).
  eauto.
Qed.

Lemma product_loop_ids (site cat : string) (visit : string -> result ProductPage)
    (stamp : nat -> Z) (iso : nat -> string) (i : nat) (links : list string) :
  Forall (fun r => exists k, (i <= k < i + length links)%nat /\
            dget "product_id" r = Some (PStr (string_of_nat k)) /\
            dget "reviews" r = Some (PList []))
         (Main.product_loop site cat visit stamp iso i links).
Proof.
  revert i. induction links as [| l links IH]; intros i; [constructor |].
  cbn [Main.product_loop].
  assert (Hw : Forall (fun r => exists k, (i <= k < i + length (l :: links))%nat /\
            dget "product_id" r = Some (PStr (string_of_nat k)) /\
            dget "reviews" r = Some (PList []))
            (Main.product_loop site cat visit stamp iso (S i) links)).
  { eapply Forall_impl; [| apply IH].
    intros r (k & Hk & H1 & H2). exists k. cbn [length]. split; [lia | auto]. }
  destruct (fst (Product.scrape_product l (visit l) (stamp i))) as [pd | e] eqn:E;
    [| exact Hw].
  destruct (Product.nonempty_dict pd); [| exact Hw].
  constructor; [| exact Hw].
  destruct (scrape_product_fst_ok _ _ _ _ E) as (p & logs & _ & Hx).
  exists i. split; [cbn [length]; lia |].
  cbn [Main.format_product dget String.eqb Ascii.eqb Bool.eqb andb].
  unfold Main.get_or.
  rewrite (extract_other_keys _ _ _ _ "id" eq_refl Hx),
          (extract_other_keys _ _ _ _ "reviews" eq_refl Hx).
  split; reflexivity.
Qed.

(** Each record of the loop names its link: the one at its position. *)
Lemma product_loop_positions (site cat : string) (visit : string -> result ProductPage)
    (stamp : nat -> Z) (iso : nat -> string) (i : nat) (links : list string) :
  Forall (fun r => exists k link s, (i <= k)%nat /\ nth_error links (k - i) = Some link /\
            dget "product_id" r = Some (PStr (string_of_nat k)) /\
            dget "source" r = Some (PDict s) /\ dget "url" s = Some (PStr link) /\
            dget "reviews" r = Some (PList []))
         (Main.product_loop site cat visit stamp iso i links).
Proof.
  revert i. induction links as [| l links IH]; intros i; [constructor |].
  cbn [Main.product_loop].
  assert (Hw : Forall (fun r => exists k link s, (i <= k)%nat /\
            nth_error (l :: links) (k - i) = Some link /\
            dget "product_id" r = Some (PStr (string_of_nat k)) /\
            dget "source" r = Some (PDict s) /\ dget "url" s = Some (PStr link) /\
            dget "reviews" r = Some (PList []))
            (Main.product_loop site cat visit stamp iso (S i) links)).
  { eapply Forall_impl; [| apply IH].
    intros r (k & link & s & Hk & Hn & H1). exists k, link, s.
    split; [lia |]. split; [| exact H1].
    replace (k - i)%nat with (S (k - S i)) by lia. exact Hn. }
  destruct (fst (Product.scrape_product l (visit l) (stamp i))) as [pd | e] eqn:E;
    [| exact Hw].
  destruct (Product.nonempty_dict pd); [| exact Hw].
  constructor; [| exact Hw].
  destruct (scrape_product_fst_ok _ _ _ _ E) as (p & logs & _ & Hx).
  eexists i, l, _. split; [lia |]. rewrite Nat.sub_diag. split; [reflexivity |].
  cbn [Main.format_product dget String.eqb Ascii.eqb Bool.eqb andb].
  unfold Main.get_or.
  rewrite (extract_other_keys _ _ _ _ "id" eq_refl Hx),
          (extract_other_keys _ _ _ _ "reviews" eq_refl Hx).
  repeat split; reflexivity.
Qed.

Lemma strs_of_image_urls (imgs : list ImgAttrs) :
  exists ss, Main.strs_of (Product.image_urls imgs) = Some ss.
Proof.
  induction imgs as [| im r [ss IH]]; [exists []; reflexivity |].
  cbn [Product.image_urls]. destruct (Product.image_url im) as [u |]; [| eauto].
  cbn [Main.strs_of]. rewrite IH. eauto.
Qed.

Lemma flat_item_format (site link t cat : string) (i : nat) (pd : dict)
    (p : ProductPage) (u : string) (logs : list effect) :
  Product.extract p u = (Ok pd, logs) ->
  exists row, Main.flat_item (Main.format_product site link t cat i pd) = Ok row /\
    dget "url" row = Some (PStr link) /\
    dget "sizes" row = Some (PStr "") /\
    dget "review_count" row = Some (PInt 0).
Proof.
  intros Hx.
  destruct (extract_ok _ _ _ _ Hx) as (r & l & _ & _ & _ & _ & _ & _ & _ & Him & _ & Hcol).
  assert (Hs : Main.get_or "sizes" pd (PList []) = PList []).
  { unfold Main.get_or. now rewrite (extract_other_keys _ _ _ _ "sizes" eq_refl Hx). }
  assert (Hr : Main.get_or "reviews" pd (PList []) = PList []).
  { unfold Main.get_or. now rewrite (extract_other_keys _ _ _ _ "reviews" eq_refl Hx). }
  assert (Hi : Main.get_or "images" pd (PList [])
               = PList (Product.image_urls (pp_images p))).
  { unfold Main.get_or. now rewrite Him. }
  assert (Hc : Main.get_or "colors" pd (PList [])
               = PList (match Product.colour_of p with
                        | Some c => if Py.truthy c then [PStr c] else []
                        | None => []
                        end)).
  { unfold Main.get_or. now rewrite Hcol. }
  destruct (strs_of_image_urls (pp_images p)) as [ss Hss].
  unfold Main.flat_item, Main.format_product.
  rewrite Hs, Hr, Hi, Hc.
  destruct (Product.colour_of p) as [c |]; [destruct (Py.truthy c) |];
    (eexists; split;
     [ cbn [Main.rbind Main.getitem dget String.eqb Ascii.eqb Bool.eqb andb
            Main.py_join Main.py_len];
       rewrite Hss; reflexivity
     | repeat split ]).
Qed.

Lemma product_loop_nodup (site cat : string) (visit : string -> result ProductPage)
    (stamp : nat -> Z) (iso : nat -> string) (i : nat) (links : list string) :
  NoDup (map (dget "product_id") (Main.product_loop site cat visit stamp iso i links)).
Proof.
  revert i. induction links as [| l links IH]; intros i; [constructor |].
  cbn [Main.product_loop].
  destruct (fst (Product.scrape_product l (visit l) (stamp i))) as [pd | e] eqn:E;
    [| apply IH].
  destruct (Product.nonempty_dict pd); [| apply IH].
  destruct (scrape_product_fst_ok _ _ _ _ E) as (p & logs & _ & Hx).
  cbn [map]. constructor; [| apply IH].
  cbn [Main.format_product dget String.eqb Ascii.eqb Bool.eqb andb].
  unfold Main.get_or. rewrite (extract_other_keys _ _ _ _ "id" eq_refl Hx).
  intros Hin. apply in_map_iff in Hin as (r & Hr & Hin).
  pose proof (product_loop_ids site cat visit stamp iso (S i) links) as Hall.
  rewrite Forall_forall in Hall.
  destruct (Hall r Hin) as (k & Hk & Hid & _).
  rewrite Hid in Hr. injection Hr as Hr. apply string_of_nat_inj in Hr. lia.
Qed.

Lemma process_data_loop (site cat : string) (visit : string -> result ProductPage)
    (stamp : nat -> Z) (iso : nat -> string) (i : nat) (links : list string) :
  exists rows,
    Main.process_data (Main.product_loop site cat visit stamp iso i links) = Ok rows /\
    map (dget "url") rows
    = map (fun r => match dget "source" r with
                    | Some (PDict s) => dget "url" s
                    | _ => None
                    end) (Main.product_loop site cat visit stamp iso i links) /\
    Forall (fun row => dget "sizes" row = Some (PStr "") /\
                       dget "review_count" row = Some (PInt 0)) rows.
Proof.
  revert i. induction links as [| l links IH]; intros i.
  { exists []. split; [reflexivity | split; constructor]. }
  cbn [Main.product_loop].
  destruct (IH (S i)) as (rows & Hp & Hu & Hf).
  destruct (fst (Product.scrape_product l (visit l) (stamp i))) as [pd | e] eqn:E;
    [| exists rows; auto].
  destruct (Product.nonempty_dict pd); [| exists rows; auto].
  destruct (scrape_product_fst_ok _ _ _ _ E) as (p & logs & _ & Hx).
  destruct (flat_item_format site l (iso i) cat i pd p l logs Hx)
    as (row & Hrow & H1 & H2 & H3).
  exists (row :: rows). split; [| split].
  - cbn [Main.process_data Main.rbind]. now rewrite Hrow, Hp.
  - cbn [map]. rewrite Hu, H1. reflexivity.
  - constructor; [split; assumption | exact Hf].
Qed.

(** ** Product code and image URLs *)

Lemma split_char_head_nosep (c : ascii) (s cur : string) :
  exists t rest, Py.split_char c s cur = (cur ++ t) :: rest /\ Py.mem_char c t = false.
Proof.
  revert cur. induction s as [| d s IH]; intros cur; cbn [Py.split_char].
  - exists "", []. now rewrite string_app_nil_r.
  - destruct (Ascii.eqb_spec c d) as [-> | Hne].
    + exists "", (Py.split_char d s ""). now rewrite string_app_nil_r.
    + destruct (IH (cur ++ String d "")) as (t & rest & E & Ht).
      exists (String d t), rest. rewrite E, string_app_assoc. split; [reflexivity |].
      cbn [Py.mem_char]. rewrite Ht, orb_false_r.
      now apply Ascii.eqb_neq.
Qed.

Lemma substring_prefix (p x : string) (m : nat) :
  substring (String.length p) m (p ++ x) = substring 0 m x.
Proof. induction p as [| c p IH]; [reflexivity | exact IH]. Qed.

Lemma string_length_app (a b : string) :
  String.length (a ++ b) = (String.length a + String.length b)%nat.
Proof. induction a as [| c a IH]; simpl; congruence. Qed.

Lemma lstrip_by_all (p : ascii -> bool) (s : string) :
  forallb p (list_ascii_of_string s) = true -> Py.lstrip_by p s = "".
Proof.
  induction s as [| c s IH]; intros H; [reflexivity |].
  cbn [list_ascii_of_string forallb] in H. apply andb_prop in H as [H1 H2].
  cbn [Py.lstrip_by]. rewrite H1. exact (IH H2).
Qed.

Lemma take_digits_app (ds rest : string) :
  forallb PyNum.is_digit (list_ascii_of_string ds) = true ->
  match rest with "" => True | String c _ => PyNum.is_digit c = false end ->
  Product.take_digits (ds ++ rest) = ds.
Proof.
  intros Hd Hr. induction ds as [| c ds IH].
  - destruct rest as [| c rest]; [reflexivity |].
    cbn [append Product.take_digits]. now rewrite Hr.
  - cbn [list_ascii_of_string forallb] in Hd. apply andb_prop in Hd as [H1 H2].
    cbn [append Product.take_digits]. rewrite H1, (IH H2). reflexivity.
Qed.

Lemma product_code_search_unfold (s : string) :
  Product.product_code_search s =
  match (if Py.prefixb "Product Code:" s then
           let ds := Product.take_digits
                       (Py.lstrip_by Py.is_space (substring 13 (String.length s) s)) in
           if Py.truthy ds then Some ds else None
         else None) with
  | Some ds => Some ds
  | None => match s with
            | EmptyString => None
            | String _ s' => Product.product_code_search s'
            end
  end.
Proof. destruct s; reflexivity. Qed.

(** X3: [re.search(r'Product Code:\s*(\d+)', text)] on a text that starts
    with the label, then ASCII whitespace (space, tab, newline, carriage
    return, form feed, vertical tab or U+001C-U+001F, the ASCII characters
    that [\s] matches), then a non-empty run of ASCII digits ended by the
    end of the text or an ASCII character that is not a digit, gives that
    run.  Non-ASCII whitespace such as U+00A0 is outside this statement. *)
Theorem product_code_found (ws ds rest : string) :
  forallb Py.is_space (list_ascii_of_string ws) = true ->
  ds <> "" -> forallb PyNum.is_digit (list_ascii_of_string ds) = true ->
  match rest with
  | "" => True
  | String c _ => PyNum.is_digit c = false /\ (nat_of_ascii c < 128)%nat
  end ->
  Product.product_code_search ("Product Code:" ++ ws ++ ds ++ rest) = Some ds.
Proof.
  intros Hws Hne Hds Hrest.
  rewrite product_code_search_unfold, prefixb_app.
  replace 13%nat with (String.length "Product Code:") by reflexivity.
  rewrite substring_prefix, substring_0_all
    by (rewrite !string_length_app; lia).
  rewrite lstrip_by_app, (lstrip_by_all _ _ Hws).
  destruct ds as [| d ds']; [congruence |].
  assert (Hd : PyNum.is_digit d = true).
  { cbn [list_ascii_of_string forallb] in Hds. now apply andb_prop in Hds as [Hd _]. }
  cbn [append Py.lstrip_by]. rewrite (is_digit_not_space d Hd).
  change (String d (ds' ++ rest)) with (String d ds' ++ rest).
  rewrite (take_digits_app (String d ds') rest Hds)
    by (destruct rest as [| c r]; [exact I | exact (proj1 Hrest)]).
  reflexivity.
Qed.

Lemma split_q_head (u : string) :
  exists base, Py.index (Py.split "?" u) 0 = Some base /\ Py.mem_char "?" base = false.
Proof.
  rewrite split_char_eq.
  destruct (split_char_head_nosep "?" u "") as (t & rest & E & Ht).
  rewrite E. exists t. split; [reflexivity | exact Ht].
Qed.

Lemma split_q_suffix (b tail : string) :
  Py.mem_char "?" b = false ->
  Py.index (Py.split "?" (b ++ String "?" tail)) 0 = Some b.
Proof.
  intros Hb. rewrite split_char_eq, split_char_app, split_char_single by exact Hb.
  reflexivity.
Qed.


(** The first piece of [u.split('?')]: the part of [u] before its first
    "?", all of [u] when it has none. *)
Lemma first_q_decomp (u : string) :
  Py.mem_char "?" u = false \/
  exists b t, u = b ++ String "?" t /\ Py.mem_char "?" b = false.
Proof.
  induction u as [| c u IH]; [now left |].
  destruct (Ascii.eqb_spec "?" c) as [<- | Hc].
  - right. exists "", u. split; reflexivity.
  - destruct IH as [H | (b & t & -> & Hb)].
    + left. cbn [Py.mem_char]. rewrite H, orb_false_r.
      now apply Ascii.eqb_neq.
    + right. exists (String c b), t. split; [reflexivity |].
      cbn [Py.mem_char]. rewrite Hb, orb_false_r. now apply Ascii.eqb_neq.
Qed.

Lemma split_q_prefix (u : string) :
  exists base rest, u = base ++ rest /\ Py.mem_char "?" base = false /\
    (rest = "" \/ exists r, rest = String "?" r) /\
    Py.index (Py.split "?" u) 0 = Some base.
Proof.
  destruct (first_q_decomp u) as [H | (b & t & -> & Hb)].
  - exists u, "". split; [now rewrite string_app_nil_r |].
    split; [exact H | split; [now left |]].
    rewrite split_char_eq, split_char_single by exact H. reflexivity.
  - exists b, (String "?" t). split; [reflexivity |].
    split; [exact Hb | split; [right; eauto |]].
    now apply split_q_suffix.
Qed.

(** X4: an image URL of the product record is the part before its first
    "?" of the first non-empty of [src], [data-src] and
    [data-full-image], followed by the fixed resolution parameters;
    feeding it back as a [src] gives it unchanged; an image gives no URL
    exactly when all three attributes are missing or empty. *)
Theorem image_url_shape (img : ImgAttrs) :
  (forall v, Product.image_url img = Some v ->
     exists raw base rest,
       (Product.attr_or_empty (img_src img) = raw \/
        Product.attr_or_empty (img_src img) = "" /\
        (Product.attr_or_empty (img_data_src img) = raw \/
         Product.attr_or_empty (img_data_src img) = "" /\
         Product.attr_or_empty (img_data_full img) = raw)) /\
       raw <> "" /\ raw = base ++ rest /\ Py.mem_char "?" base = false /\
       (rest = "" \/ exists r, rest = String "?" r) /\
       v = base ++ "?$n_960w$&wid=951&fit=constrain") /\
  (forall v, Product.image_url img = Some v ->
     Product.image_url {| img_src := Some v; img_data_src := None;
                          img_data_full := None |} = Some v) /\
  (Product.image_url img = None <->
     Product.attr_or_empty (img_src img) = "" /\ Product.attr_or_empty (img_data_src img) = "" /\
     Product.attr_or_empty (img_data_full img) = "").
Proof.
  assert (Hpick : forall u v, Py.truthy u = true ->
     match Py.index (Py.split "?" u) 0 with
     | Some base => Some (base ++ "?$n_960w$&wid=951&fit=constrain")
     | None => None
     end = Some v ->
     u <> "" /\ exists base rest, u = base ++ rest /\ Py.mem_char "?" base = false /\
       (rest = "" \/ exists r, rest = String "?" r) /\
       v = base ++ "?$n_960w$&wid=951&fit=constrain").
  { intros u v Hu.
    destruct (split_q_prefix u) as (base & rest & Hur & Hb & Hr & E). rewrite E.
    intros H. injection H as <-. split.
    - intros ->. discriminate.
    - exists base, rest. auto. }
  assert (Hempty : forall u, Py.truthy u = false -> u = "").
  { intros u. unfold Py.truthy. destruct (String.eqb_spec u ""); [auto | discriminate]. }
  assert (Hgen : forall u0 u1 u2 v,
     (let u1' := if Py.truthy u0 then u0 else u1 in
      let u2' := if Py.truthy u1' then u1' else u2 in
      if Py.truthy u2' then
        match Py.index (Py.split "?" u2') 0 with
        | Some base => Some (base ++ "?$n_960w$&wid=951&fit=constrain")
        | None => None
        end
      else None) = Some v ->
     exists raw base rest,
       (u0 = raw \/ u0 = "" /\ (u1 = raw \/ u1 = "" /\ u2 = raw)) /\
       raw <> "" /\ raw = base ++ rest /\ Py.mem_char "?" base = false /\
       (rest = "" \/ exists r, rest = String "?" r) /\
       v = base ++ "?$n_960w$&wid=951&fit=constrain").
  { intros u0 u1 u2 v H. cbv zeta in H.
    destruct (Py.truthy u0) eqn:E0.
    - cbv iota in H. repeat (rewrite E0 in H; cbv iota in H).
      destruct (Hpick _ _ E0 H) as (Hne & base & rest & Hs).
      exists u0, base, rest. split; [left; reflexivity | split; [exact Hne | exact Hs]].
    - cbv iota in H. apply Hempty in E0.
      destruct (Py.truthy u1) eqn:E1.
      + cbv iota in H. repeat (rewrite E1 in H; cbv iota in H).
        destruct (Hpick _ _ E1 H) as (Hne & base & rest & Hs).
        exists u1, base, rest.
        split; [right; split; [exact E0 | left; reflexivity] | split; [exact Hne | exact Hs]].
      + cbv iota in H. apply Hempty in E1.
        destruct (Py.truthy u2) eqn:E2; [| discriminate].
        repeat (rewrite E2 in H; cbv iota in H).
        destruct (Hpick _ _ E2 H) as (Hne & base & rest & Hs).
        exists u2, base, rest.
        split; [right; split; [exact E0 | right; split; [exact E1 | reflexivity]] |
                split; [exact Hne | exact Hs]]. }
  assert (Hshape : forall v, Product.image_url img = Some v ->
     exists base, v = base ++ "?$n_960w$&wid=951&fit=constrain" /\
                  Py.mem_char "?" base = false).
  { intros v Hv. unfold Product.image_url in Hv.
    destruct (Hgen _ _ _ _ Hv) as (raw & base & rest & _ & _ & _ & Hb & _ & ->).
    eauto. }
  split; [| split].
  - intros v Hv. unfold Product.image_url in Hv. unfold Product.attr_or_empty.
    exact (Hgen _ _ _ _ Hv).
  - intros v Hv. destruct (Hshape v Hv) as (base & -> & Hb).
    unfold Product.image_url. cbv zeta beta. cbn [img_src img_data_src img_data_full].
    assert (Ht : Py.truthy (base ++ "?$n_960w$&wid=951&fit=constrain") = true).
    { unfold Py.truthy. destruct base; reflexivity. }
    repeat (rewrite Ht; cbv iota beta).
    rewrite split_q_suffix by exact Hb. reflexivity.
  - unfold Product.image_url, Product.attr_or_empty. cbv zeta.
    destruct (img_src img) as [[| c1 s1] |], (img_data_src img) as [[| c2 s2] |],
      (img_data_full img) as [[| c3 s3] |];
    cbn [Py.truthy String.eqb negb];
    repeat match goal with
      | |- context [Py.index (Py.split "?" ?u) 0] =>
          let b := fresh "b" in let E := fresh "E" in
          destruct (split_q_head u) as (b & E & _); rewrite E
      end;
    split; intros H; try (repeat split; reflexivity); try discriminate;
    intuition discriminate.
Qed.

(** ** Rating bars *)

Lemma mem_char_forallb (c : ascii) (f : ascii -> bool) (s : string) :
  forallb f (list_ascii_of_string s) = true -> f c = false -> Py.mem_char c s = false.
Proof.
  intros H Hc. induction s as [| d s IH]; [reflexivity |].
  cbn [list_ascii_of_string forallb] in H. apply andb_prop in H as [H1 H2].
  cbn [Py.mem_char]. rewrite (IH H2), orb_false_r.
  destruct (Ascii.eqb_spec c d) as [-> | Hne]; [congruence | reflexivity].
Qed.

Lemma string_of_nat_digits (n : nat) :
  forallb PyNum.is_digit (list_ascii_of_string (string_of_nat n)) = true /\
  string_of_nat n <> "".
Proof.
  unfold string_of_nat.
  destruct (string_of_nat_aux_digits (S n) n "") as (Hd & (c & r & E) & _); [lia |].
  rewrite Hd. split; [reflexivity | rewrite E; discriminate].
Qed.

Lemma strip_spaces_app (ws s : string) :
  forallb Py.is_space (list_ascii_of_string ws) = true ->
  Py.strip (ws ++ s) = Py.strip s.
Proof.
  intros H. unfold Py.strip, Py.strip_by.
  rewrite lstrip_by_app, (lstrip_by_all _ _ H). reflexivity.
Qed.

Lemma py_int_spaces_nat (ws : string) (n : nat) :
  forallb Py.is_space (list_ascii_of_string ws) = true ->
  PyNum.py_int (ws ++ string_of_nat n) = Some (Z.of_nat n).
Proof.
  intros H. unfold PyNum.py_int. rewrite (strip_spaces_app _ _ H).
  exact (py_int_string_of_nat n).
Qed.

Lemma forallb_negb_digits_pct (s : string) :
  forallb PyNum.is_digit (list_ascii_of_string s) = true ->
  forallb (fun c => negb (Py.mem_char c "%;")) (list_ascii_of_string s) = true.
Proof.
  rewrite !forallb_forall. intros H c Hc. specialize (H c Hc).
  unfold PyNum.is_digit in H. apply andb_prop in H as [H1 H2].
  apply Nat.leb_le in H1, H2.
  cbn [Py.mem_char]. rewrite orb_false_r.
  destruct (Ascii.eqb_spec c "%") as [-> | _]; [cbv in H1; lia |].
  destruct (Ascii.eqb_spec c ";") as [-> | _]; [cbv in H1, H2; lia | reflexivity].
Qed.

Lemma forallb_negb_spaces_pct (s : string) :
  forallb Py.is_space (list_ascii_of_string s) = true ->
  forallb (fun c => negb (Py.mem_char c "%;")) (list_ascii_of_string s) = true.
Proof.
  rewrite !forallb_forall. intros H c Hc. specialize (H c Hc).
  cbn [Py.mem_char]. rewrite orb_false_r.
  destruct (Ascii.eqb_spec c "%") as [-> | _]; [discriminate H |].
  destruct (Ascii.eqb_spec c ";") as [-> | _]; [discriminate H | reflexivity].
Qed.

Lemma strip_pct (ws n t : string) :
  forallb Py.is_space (list_ascii_of_string ws) = true ->
  n <> "" -> forallb PyNum.is_digit (list_ascii_of_string n) = true ->
  forallb (fun c => Py.mem_char c "%;") (list_ascii_of_string t) = true ->
  Py.strip_chars "%;" (ws ++ n ++ t) = ws ++ n.
Proof.
  intros Hws Hne Hn Ht.
  assert (Hw : forallb (fun c => negb (Py.mem_char c "%;"))
                 (list_ascii_of_string (ws ++ n)) = true).
  { rewrite list_ascii_of_string_app, forallb_app.
    rewrite (forallb_negb_spaces_pct _ Hws), (forallb_negb_digits_pct _ Hn).
    reflexivity. }
  assert (Hwne : ws ++ n <> "") by (destruct ws; [exact Hne | discriminate]).
  unfold Py.strip_chars, Py.strip_by.
  rewrite <- string_app_assoc.
  rewrite lstrip_by_app, (lstrip_by_stop _ _ Hwne Hw).
  destruct (ws ++ n) as [| c w] eqn:E; [congruence |].
  rewrite <- E in Hw, Hwne |- *.
  rewrite rev_string_app, lstrip_by_app, lstrip_by_all.
  - rewrite lstrip_by_stop.
    + apply rev_string_involutive.
    + now apply rev_string_nonempty.
    + now rewrite list_rev_string, forallb_rev.
  - now rewrite list_rev_string, forallb_rev.
Qed.

(** X5: a rating bar whose style reads [k:ws<n><%;...>], with no colon in
    [k], gives the integer [n]; a style with no colon raises the
    [IndexError] that the handler of lines 344-347 does not catch. *)
Theorem rating_bar_value :
  (forall k ws n t,
     Py.mem_char ":" k = false ->
     forallb Py.is_space (list_ascii_of_string ws) = true ->
     forallb (fun c => Py.mem_char c "%;") (list_ascii_of_string t) = true ->
     Product.bar_value (Some (Some (k ++ ":" ++ ws ++ string_of_nat n ++ t)))
     = Ok (Some (PInt (Z.of_nat n)))) /\
  (forall style,
     Py.mem_char ":" style = false ->
     Product.bar_value (Some (Some style))
     = Raise (Exn "IndexError" "list index out of range")).
Proof.
  split.
  - intros k ws n t Hk Hws Ht.
    destruct (string_of_nat_digits n) as [Hd Hne].
    unfold Product.bar_value.
    change (k ++ ":" ++ ws ++ string_of_nat n ++ t)
      with (k ++ String ":" (ws ++ string_of_nat n ++ t)).
    rewrite split_char_eq, split_char_app, split_char_single by exact Hk.
    rewrite split_char_single.
    2: { rewrite !mem_char_app, (mem_char_forallb _ _ _ Hws) by reflexivity.
         rewrite (mem_char_forallb _ _ _ Hd) by reflexivity.
         rewrite (mem_char_forallb _ _ _ Ht) by reflexivity. reflexivity. }
    cbn [Py.index nth_error app append].
    rewrite strip_pct by assumption.
    unfold Product.int_or_none. rewrite (py_int_spaces_nat _ _ Hws). reflexivity.
  - intros style Hs. unfold Product.bar_value.
    rewrite split_char_eq, split_char_single by exact Hs. reflexivity.
Qed.

Lemma rating_bar_value_witness :
  Product.bar_value (Some (Some "width: 85%;")) = Ok (Some (PInt 85%Z)) /\
  Product.bar_value (Some (Some "width 85%")) = Raise (Exn "IndexError" "list index out of range").
Proof.
  split.
  - apply (proj1 rating_bar_value "width" " " 85%nat "%;"); reflexivity.
  - apply (proj2 rating_bar_value "width 85%"); reflexivity.
Defined.

Lemma bar_value_no_colon (style : string) :
  Py.mem_char ":" style = false ->
  Product.bar_value (Some (Some style))
  = Raise (Exn "IndexError" "list index out of range").
Proof.
  intros Hs. unfold Product.bar_value.
  rewrite split_char_eq, split_char_single by exact Hs. reflexivity.
Qed.

Lemma extract_ratings_raise (p : ProductPage) (u : string) (e : exn) :
  Product.ratings_of p = Raise e -> exists logs, Product.extract p u = (Raise e, logs).
Proof.
  intros H. unfold Product.extract.
  destruct (Product.price_step p []) as [d0 logs0].
  rewrite H. eauto.
Qed.

(** X6: on a page with a ratings block and at least two rating bars, a
    fit bar whose style has no colon makes [scrape_product] fail with
    "Could not find any product details", whatever else the page holds
    (its price included), after saving the page source. *)
Theorem colonless_rating_bar_fails (p : ProductPage) (url : string) (now : Z)
    (blk : option string * option string) (style : string)
    (quality : option (option string)) (rest : list (option (option string))) :
  Product.bot_detected p = false ->
  pp_ratings_block p = Some blk ->
  pp_rating_bars p = Some (Some style) :: quality :: rest ->
  Py.mem_char ":" style = false ->
  exists eff,
    Product.scrape_product url (Ok p) now
    = (Raise (Exn "Exception" "Could not find any product details"), eff) /\
    In (WriteFile "asos_product_debug_" now (pp_source p)) eff.
Proof.
  intros Hbot Hblk Hbars Hs.
  assert (Hr : Product.ratings_of p = Raise (Exn "IndexError" "list index out of range")).
  { unfold Product.ratings_of. rewrite Hblk. destruct blk as [o t].
    rewrite Hbars, (bar_value_no_colon _ Hs). reflexivity. }
  destruct (extract_ratings_raise p url _ Hr) as [logs Hx].
  unfold Product.scrape_product. rewrite Hbot, Hx.
  eexists. split; [reflexivity |].
  rewrite !in_app_iff. cbn [In]. tauto.
Qed.

(** X7: [dedup] ([list(dict.fromkeys(l))]) keeps the members of its input,
    returns no duplicate, is idempotent, and keeps first occurrences in
    order: appending an element already present changes nothing, a new
    one goes last. *)
Theorem dedup_first_seen :
  (forall l x, In x (Links.dedup l) <-> In x l) /\
  (forall l, NoDup (Links.dedup l)) /\
  (forall l, Links.dedup (Links.dedup l) = Links.dedup l) /\
  (forall l x, Links.dedup (l ++ [x])%list
               = if existsb (String.eqb x) l then Links.dedup l
                 else (Links.dedup l ++ [x])%list).
Proof.
  split; [| split; [| split]].
  - intros l x. unfold Links.dedup. rewrite dedup_seen_in. cbn [In]. tauto.
  - intros l. apply dedup_seen_nodup.
  - intros l. unfold Links.dedup at 1. apply dedup_seen_id;
      [apply dedup_seen_nodup | intros x _ []].
  - intros l x. unfold Links.dedup. rewrite dedup_seen_snoc, app_nil_r.
    destruct (existsb (String.eqb x) l); [now rewrite app_nil_r | reflexivity].
Qed.

(** X8: when the decorated [get_product_links] returns links, they are
    non-empty and each contains "asos.com" and "/prd/", on the live-page
    path as on the static-markup fallback. *)
Theorem product_links_valid (url : string)
    (navs : nat -> result Links.CategoryPage) (clock : nat -> Z)
    (links : list string) (n : nat) (ws : list Z) (eff : list effect) :
  Retry.get_product_links url navs clock = (Ok links, n, ws, eff) ->
  links <> [] /\ Forall Links.product_link links.
Proof.
  unfold Retry.get_product_links. intros H.
  destruct (decorated_cases _ _ _ _ _ H) as (_ & Hr & _).
  exact (attempt_ok _ _ _ _ Hr).
Qed.

Lemma product_links_valid_witness :
  ["https://www.asos.com/prd/12345"; "https://www.asos.com/prd/12345"] <> [] /\
  Forall Links.product_link ["https://www.asos.com/prd/12345"; "https://www.asos.com/prd/12345"].
Proof.
  apply (product_links_valid Fixtures.category_url
           (fun _ => Ok Fixtures.base_tag_page) (fun _ => 0%Z) _ 1 []
           [Navigate Fixtures.category_url;
            WriteFile "asos_debug_" 0 (Links.cp_source Fixtures.base_tag_page)]).
  reflexivity.
Defined.

(** X9: the decorated [get_product_links] loads the category page once per
    attempt: the browser is sent to [url] exactly as many times as the
    attempts made, and nowhere else. *)
Theorem get_product_links_navigations (url : string)
    (navs : nat -> result Links.CategoryPage) (clock : nat -> Z)
    r (n : nat) (ws : list Z) (eff : list effect) :
  Retry.get_product_links url navs clock = (r, n, ws, eff) ->
  navigations eff = repeat url n.
Proof.
  unfold Retry.get_product_links. intros H.
  destruct (decorated_cases _ _ _ _ _ H) as (_ & _ & ->). clear H.
  generalize 1%nat as k. induction n as [| n IH]; intros k; [reflexivity |].
  cbn [seq flat_map repeat]. rewrite navigations_app, attempt_navigations, IH.
  reflexivity.
Qed.

Lemma get_product_links_navigations_witness :
  navigations [Navigate Fixtures.category_url; Navigate Fixtures.category_url;
               Navigate Fixtures.category_url]
  = repeat Fixtures.category_url 3.
Proof.
  apply (get_product_links_navigations Fixtures.category_url
           (fun _ => Ok Fixtures.redirected_page) (fun _ => 0%Z)
           (Raise (RetryError (Exn "Exception" "Redirected to unexpected URL")))
           3 [4%Z; 4%Z]).
  reflexivity.
Defined.

(** X10: the outcome of the decorated call: every attempt before the last
    raised; the call returns the last attempt's value when it succeeded,
    and otherwise the last attempt was the third and [RetryError] wraps
    its exception; the effects are those of the attempts made, in order. *)
Theorem retry_outcome {A} (op : nat -> result A * list effect) r n ws eff :
  Retry.decorated op = (r, n, ws, eff) ->
  (forall k, (1 <= k < n)%nat -> exists e, fst (op k) = Raise e) /\
  (match r with
   | Ok v => fst (op n) = Ok v
   | Raise e' => n = 3%nat /\ exists e, e' = RetryError e /\ fst (op 3%nat) = Raise e
   end) /\
  eff = flat_map (fun k => snd (op k)) (seq 1 n).
Proof. apply decorated_cases. Qed.

Lemma retry_outcome_witness :
  exists e, RetryError (Exn "TimeoutException" "slow") = RetryError e /\
    fst ((Raise (Exn "TimeoutException" "slow") : result unit), [Log "WARNING" "retry"])
    = Raise e.
Proof.
  apply (proj2 (proj1 (proj2 (retry_outcome
    (fun _ : nat => ((Raise (Exn "TimeoutException" "slow") : result unit),
                     [Log "WARNING" "retry"]))
    _ 3 [4%Z; 4%Z]
    [Log "WARNING" "retry"; Log "WARNING" "retry"; Log "WARNING" "retry"]
    eq_refl)))).
Defined.

(** X11: links read from the live page (the attempt wrote no debug file)
    hold no duplicate. *)
Theorem live_links_distinct (url : string) (nav : result Links.CategoryPage) (now : Z)
    (links : list string) :
  Links.attempt url nav now = (Ok links, [Navigate url]) -> NoDup links.
Proof.
  unfold Links.attempt.
  destruct nav as [p | e]; [| discriminate].
  destruct (negb (Py.contains "asos.com" (Links.cp_current_url p))); [discriminate |].
  destruct (Links.cp_scroll p); [| discriminate].
  destruct (Links.selector_loop (Links.cp_find_elements p) Links.link_selectors [])
    as [| x r].
  - destruct (Links.soup_links (Links.cp_anchor_hrefs p)); discriminate.
  - intros H. injection H as <-. apply dedup_seen_nodup.
Qed.

Lemma live_links_distinct_witness :
  NoDup ["https://www.asos.com/prd/1"; "https://www.asos.com/prd/2"].
Proof.
  apply (live_links_distinct Fixtures.category_url (Ok Fixtures.live_page) 0).
  reflexivity.
Defined.

(** X12: every exception [scrape_product] raises is the navigation's own,
    "Bot detection triggered" or "Could not find any product details";
    the call logs its start, navigates once to the URL, and ends with an
    ERROR record naming the URL and the exception; once the page loaded,
    the failure also saved the page source to a debug file. *)
Theorem scrape_product_raise_shape (url : string) (nav : result ProductPage) (now : Z)
    (e : exn) (eff : list effect) :
  Product.scrape_product url nav now = (Raise e, eff) ->
  (nav = Raise e \/ e = Exn "Exception" "Bot detection triggered"
   \/ e = Exn "Exception" "Could not find any product details") /\
  exists mid,
    eff = (Log "INFO" ("Starting to scrape product: " ++ url) :: Navigate url :: mid
           ++ [Log "ERROR" ("Error scraping product " ++ url ++ ": " ++ exn_str e)])%list /\
    (forall p, nav = Ok p -> exists prefix, In (WriteFile prefix now (pp_source p)) mid).
Proof.
  unfold Product.scrape_product.
  destruct nav as [p | e0].
  - destruct (Product.bot_detected p).
    + intros H. injection H as <- <-. split; [right; left; reflexivity |].
      eexists. split; [reflexivity |].
      intros p' Hp. injection Hp as <-. exists "asos_bot_detection_".
      rewrite in_app_iff. right. cbn [In]. tauto.
    + destruct (Product.extract p url) as [[d | e1] logs];
        [destruct (has_key "price" d); [discriminate |] |];
        intros H; injection H as <- <-; (split; [right; right; reflexivity |]);
        eexists; (split; [reflexivity |]);
        intros p' Hp; injection Hp as <-; exists "asos_product_debug_";
        rewrite !in_app_iff; cbn [In]; tauto.
  - intros H. injection H as <- <-. split; [left; reflexivity |].
    exists []. split; [reflexivity | discriminate].
Qed.

Lemma scrape_product_raise_shape_witness :
  (Ok Fixtures.challenge_page = Raise (Exn "Exception" "Bot detection triggered")
   \/ Exn "Exception" "Bot detection triggered" = Exn "Exception" "Bot detection triggered"
   \/ Exn "Exception" "Bot detection triggered"
      = Exn "Exception" "Could not find any product details").
Proof.
  exact (proj1 (scrape_product_raise_shape Fixtures.dress_url
                  (Ok Fixtures.challenge_page) 7%Z _ _ eq_refl)).
Defined.

Lemma carousel_item_missing (it : CarouselItem) :
  (exists aria title, ci_a it = Some (None, aria, title)) \/ ci_img it = Some None ->
  exists e, Product.carousel_item it = Raise e.
Proof.
  intros H. unfold Product.carousel_item.
  destruct H as [(aria & title & Ha) | Hi].
  - rewrite Ha. eauto.
  - destruct (ci_a it) as [[[[h |] aria] title] |]; [rewrite Hi; eauto | eauto | rewrite Hi; eauto].
Qed.

Lemma carousel_raise (items : list CarouselItem) (it : CarouselItem) :
  In it items -> (exists e, Product.carousel_item it = Raise e) ->
  exists e, Product.carousel items = Raise e.
Proof.
  intros Hin [e He]. induction items as [| x r IH]; [destruct Hin |].
  cbn [Product.carousel].
  destruct Hin as [-> | Hin].
  - rewrite He. eauto.
  - destruct (Product.carousel_item x); [| eauto].
    destruct (IH Hin) as [e' ->]. eauto.
Qed.

(** X13: one "You Might Also Like" item whose link has no [href] or whose
    image has no [src] makes [related] leave the product dict as it was:
    neither [people_also_like] nor [people_also_bought] is set, and the
    "People Also Bought" section is not read. *)
Theorem malformed_recommendation_drops_both (p : ProductPage) (d : dict)
    (items : list CarouselItem) (it : CarouselItem) :
  pp_might_like p = Some items -> In it items ->
  (exists aria title, ci_a it = Some (None, aria, title)) \/ ci_img it = Some None ->
  fst (Product.related p d) = d.
Proof.
  intros Hm Hin Hit.
  destruct (carousel_raise items it Hin (carousel_item_missing it Hit)) as [e He].
  unfold Product.related. rewrite Hm, He. reflexivity.
Qed.

Lemma malformed_recommendation_drops_both_witness :
  fst (Product.related Fixtures.recommended_page [("url", PStr "u")])
  = [("url", PStr "u")].
Proof.
  apply (malformed_recommendation_drops_both Fixtures.recommended_page
           [("url", PStr "u")] [Fixtures.good_item; Fixtures.hrefless_item]
           Fixtures.hrefless_item).
  - reflexivity.
  - simpl. right; left; reflexivity.
  - left. exists (Some "Midi Dress. £20.00"), None. reflexivity.
Defined.

(** X14: a failed [wait_for_page_load] does not change what [scrape_product]
    returns or raises, nor any other effect of the call: the effects with
    one outcome of the wait and with another differ only in the block
    [wait_logs] at one place, and that block holds nothing but WARNING
    log records. *)
Theorem wait_failure_tolerated (p : ProductPage) (w : result unit) (url : string)
    (now : Z) :
  fst (Product.scrape_product url (Ok (Fixtures.with_wait p w)) now)
  = fst (Product.scrape_product url (Ok p) now) /\
  (exists pre post,
     snd (Product.scrape_product url (Ok (Fixtures.with_wait p w)) now)
     = (pre ++ Product.wait_logs (Fixtures.with_wait p w) ++ post)%list /\
     snd (Product.scrape_product url (Ok p) now)
     = (pre ++ Product.wait_logs p ++ post)%list) /\
  Forall (fun e => exists m, e = Log "WARNING" m)
         (Product.wait_logs (Fixtures.with_wait p w)).
Proof.
  split; [| split].
  - unfold Product.scrape_product.
    change (Product.bot_detected (Fixtures.with_wait p w)) with (Product.bot_detected p).
    change (Product.extract (Fixtures.with_wait p w) url) with (Product.extract p url).
    destruct (Product.bot_detected p); [reflexivity |].
    destruct (Product.extract p url) as [[d | e] logs]; [destruct (has_key "price" d) |];
      reflexivity.
  - unfold Product.scrape_product.
    change (Product.bot_detected (Fixtures.with_wait p w)) with (Product.bot_detected p).
    change (Product.extract (Fixtures.with_wait p w) url) with (Product.extract p url).
    generalize (Product.wait_logs (Fixtures.with_wait p w)) as W1.
    generalize (Product.wait_logs p) as W2. intros W2 W1.
    destruct (Product.bot_detected p).
    + cbn [snd]. rewrite <- !app_assoc. eexists _, _. split; reflexivity.
    + destruct (Product.extract p url) as [[d | e] logs]; [destruct (has_key "price" d) |];
        cbn [snd]; rewrite <- ?app_assoc; eexists _, _; split; reflexivity.
  - unfold Product.wait_logs. cbn [Fixtures.with_wait pp_wait].
    destruct w as [u | e].
    + constructor.
    + constructor; [eexists; reflexivity |].
      constructor; [eexists; reflexivity | constructor].
Qed.

(** X15: every record the product loop of [main.py] keeps has the product
    id [str(i)], where [i] is the 1-based position in the link list of
    the link the record was scraped from (its [source] URL): the scraped
    dict has no [id].  So the ids, used to name the saved files, are
    pairwise distinct; and its [reviews] is the empty list (the scraped
    dict has no [reviews]). *)
Theorem product_ids_distinct (site cat : string) (visit : string -> result ProductPage)
    (stamp : nat -> Z) (iso : nat -> string) (links : list string) :
  NoDup (map (dget "product_id") (Main.product_loop site cat visit stamp iso 1 links)) /\
  Forall (fun r => exists i link s, (1 <= i)%nat /\ nth_error links (i - 1) = Some link /\
            dget "product_id" r = Some (PStr (string_of_nat i)) /\
            dget "source" r = Some (PDict s) /\ dget "url" s = Some (PStr link) /\
            dget "reviews" r = Some (PList []))
         (Main.product_loop site cat visit stamp iso 1 links).
Proof.
  split; [apply product_loop_nodup | apply product_loop_positions].
Qed.

(** X16: [process_data] never raises on the records of the product loop:
    it gives one row per record, in order (each row's [url] is its
    record's source URL), with [sizes] the empty string and
    [review_count] 0. *)
Theorem process_data_of_loop (site cat : string) (visit : string -> result ProductPage)
    (stamp : nat -> Z) (iso : nat -> string) (links : list string) :
  exists rows,
    Main.process_data (Main.product_loop site cat visit stamp iso 1 links) = Ok rows /\
    map (dget "url") rows
    = map (fun r => match dget "source" r with
                    | Some (PDict s) => dget "url" s
                    | _ => None
                    end) (Main.product_loop site cat visit stamp iso 1 links) /\
    Forall (fun row => dget "sizes" row = Some (PStr "") /\
                       dget "review_count" row = Some (PInt 0)) rows.
Proof. apply process_data_loop. Qed.

Lemma category_name_canonical_witness :
  Main.extract_category_name
    ("https://www.asos.com/women" ++ "/" ++ "dresses" ++ "/cat/?" ++ "cid=8799")
  = "dresses".
Proof. apply category_name_canonical; reflexivity. Defined.

Lemma validated_category_found_witness :
  exists category, Main.category_of Fixtures.category_url = Ok category.
Proof. apply validated_category_found. reflexivity. Defined.

Lemma product_code_found_witness :
  Product.product_code_search ("Product Code:" ++ " " ++ "12345" ++ " Colour")
  = Some "12345".
Proof.
  apply product_code_found.
  - reflexivity.
  - discriminate.
  - reflexivity.
  - split; [reflexivity | vm_compute; lia].
Defined.

Lemma image_url_shape_witness :
  Product.image_url {| img_src := Some "https://images.asos-media.com/a.jpg?$n_960w$&wid=951&fit=constrain";
                       img_data_src := None; img_data_full := None |}
  = Some "https://images.asos-media.com/a.jpg?$n_960w$&wid=951&fit=constrain".
Proof.
  apply (proj1 (proj2 (image_url_shape
    {| img_src := None; img_data_src := Some "https://images.asos-media.com/a.jpg?wid=40";
       img_data_full := None |}))).
  reflexivity.
Defined.

Lemma colonless_rating_bar_fails_witness :
  exists eff,
    Product.scrape_product Fixtures.dress_url (Ok Fixtures.rated_page) 7
    = (Raise (Exn "Exception" "Could not find any product details"), eff) /\
    In (WriteFile "asos_product_debug_" 7 (pp_source Fixtures.rated_page)) eff.
Proof.
  apply (colonless_rating_bar_fails Fixtures.rated_page Fixtures.dress_url 7
           (Some "4.5", Some "(12)") "width 85%" (Some (Some "width: 90%;")) []);
    reflexivity.
Defined.
